(** * ChatRoom: the signalling coordinator of familyrealtime

    A shallow embedding of the [ChatRoom] Durable Object (worker.js): the
    [sessions] array, the [participants] Map and the three listeners that
    [handleWebSocket] installs on every accepted socket. *)

From Stdlib Require Import List String Ascii Bool Arith ZArith Lia Floats.
Import ListNotations.
Open Scope string_scope.
Open Scope list_scope.

(** ** JavaScript values

    Everything the coordinator reads from a frame comes out of [JSON.parse],
    so a value is a JSON value or [undefined] (a missing property).  Numbers
    are doubles.  Arrays and objects are heap objects: they carry the address
    that [===] and the Map's key comparison look at, and an object lists its
    own properties, each name once. *)

Set Warnings "-register-all".

Inductive jsval : Type :=
| JUndefined
| JNull
| JBool (b : bool)
| JNum (n : float)
| JStr (s : string)
| JArr (addr : nat) (elems : list jsval)
| JObj (addr : nat) (props : list (string * jsval)).

Definition is_nan (n : float) : bool := negb (PrimFloat.eqb n n).

(** [a === b]. *)
Definition strict_equals (a b : jsval) : bool :=
  match a, b with
  | JUndefined, JUndefined => true
  | JNull, JNull => true
  | JBool x, JBool y => Bool.eqb x y
  | JNum x, JNum y => PrimFloat.eqb x y
  | JStr x, JStr y => String.eqb x y
  | JArr x _, JArr y _ => Nat.eqb x y
  | JObj x _, JObj y _ => Nat.eqb x y
  | _, _ => false
  end.

(** The Map's key comparison (SameValueZero): [===] except that NaN equals
    itself. *)
Definition same_value_zero (a b : jsval) : bool :=
  match a, b with
  | JNum x, JNum y => PrimFloat.eqb x y || (is_nan x && is_nan y)
  | _, _ => strict_equals a b
  end.

(** [if (v)]. *)
Definition truthy (v : jsval) : bool :=
  match v with
  | JUndefined | JNull => false
  | JBool b => b
  | JNum n => negb (PrimFloat.eqb n 0 || is_nan n)
  | JStr s => negb (String.eqb s "")
  | JArr _ _ | JObj _ _ => true
  end.

Fixpoint own_property (props : list (string * jsval)) (name : string) : jsval :=
  match props with
  | [] => JUndefined
  | (k, v) :: rest => if String.eqb k name then v else own_property rest name
  end.

(** [v.name] throws a TypeError on [null] and [undefined]. *)
Definition member_throws (v : jsval) : bool :=
  match v with
  | JUndefined | JNull => true
  | _ => false
  end.

(** [v.name] for the four names the coordinator reads ([type], [sessionId],
    [userName], [trackInfo]): no prototype defines them, and they are no
    array index, so only an object's own properties can answer. *)
Definition member (v : jsval) (name : string) : jsval :=
  match v with
  | JObj _ props => own_property props name
  | _ => JUndefined
  end.

Inductive exn : Type := SyntaxError | TypeError | RangeError.

(** ** The limits of the runtime

    Converting a nested array to a string and serialising a nested value both
    recurse once per level, and the runtime throws a RangeError when its call
    stack is exhausted.  How deep it gets is the runtime's own business:
    [print_depth] is how many arrays inside one another [`${v}`] can convert,
    [stringify_depth] how many levels [JSON.stringify] can serialise beyond the
    three that a message with plain fields has.  A runtime that never gives up
    is one whose depths exceed every value it meets. *)
Record Runtime : Type := mkRuntime {
  print_depth : nat;
  stringify_depth : nat
}.

(** [`${v}`] with room for [depth] nested arrays.  An array converts its
    elements in order ([null] and [undefined] ones as the empty string), one
    level down; an object with an own [toString] property throws a TypeError
    (a JSON value is never callable, and the inherited [valueOf] returns the
    object itself), any other object prints without looking inside. *)
Fixpoint to_string_error (depth : nat) (v : jsval) {struct v} : option exn :=
  match v with
  | JArr _ elems =>
      match depth with
      | 0 => Some RangeError
      | S d =>
          (fix each (l : list jsval) : option exn :=
             match l with
             | [] => None
             | x :: rest =>
                 match to_string_error d x with
                 | Some e => Some e
                 | None => each rest
                 end
             end) elems
      end
  | JObj _ props =>
      if existsb (fun p => String.eqb (fst p) "toString") props
      then Some TypeError
      else None
  | _ => None
  end.

(** How many arrays and objects lie inside one another in a value. *)
Fixpoint nesting (v : jsval) : nat :=
  match v with
  | JArr _ elems => S (list_max (map nesting elems))
  | JObj _ props => S (list_max (map (fun p => nesting (snd p)) props))
  | _ => 0
  end.

(** [v.substring(0, 8)]: only a string has a callable [substring]. *)
Definition substring_throws (v : jsval) : bool :=
  match v with
  | JStr _ => false
  | _ => true
  end.

(** ** Transport sessions *)

(** A server-side socket, known by its identity ([session !== ws]). *)
Definition WebSocket : Type := nat.

Inductive ready_state : Type := CONNECTING | OPEN | CLOSING | CLOSED.

Definition is_OPEN (r : ready_state) : bool :=
  match r with
  | OPEN => true
  | _ => false
  end.

(** [event.data], seen through what [JSON.parse] makes of it. *)
Inductive frame : Type :=
| Malformed
| Text (parsed : jsval).

Definition JSON_parse (data : frame) : option jsval :=
  match data with
  | Malformed => None
  | Text v => Some v
  end.

(** ** The participants Map *)

Module Participant.
(** [{ ws, userName, trackInfo }] *)
Record t : Type := mk { ws : WebSocket; userName : jsval; trackInfo : jsval }.
End Participant.

Module Map.
(** Entries in insertion order, which is the order [entries()] yields. *)
Definition t : Type := list (jsval * Participant.t).

Definition empty : t := [].

Definition size (m : t) : nat := List.length m.

Definition entries (m : t) : list (jsval * Participant.t) := m.

(** A key -0 is stored as +0. *)
Definition canonical (k : jsval) : jsval :=
  match k with
  | JNum n => if PrimFloat.eqb n 0 then JNum 0 else k
  | _ => k
  end.

(** An existing key keeps its place and gets the new value; a new key goes
    to the end. *)
Fixpoint set (k : jsval) (v : Participant.t) (m : t) : t :=
  match m with
  | [] => [(canonical k, v)]
  | (k', v') :: rest =>
      if same_value_zero k' k then (k', v) :: rest
      else (k', v') :: set k v rest
  end.

Fixpoint get (k : jsval) (m : t) : option Participant.t :=
  match m with
  | [] => None
  | (k', v') :: rest => if same_value_zero k' k then Some v' else get k rest
  end.

Fixpoint delete (k : jsval) (m : t) : t :=
  match m with
  | [] => []
  | (k', v') :: rest =>
      if same_value_zero k' k then rest else (k', v') :: delete k rest
  end.

Definition has (k : jsval) (m : t) : bool :=
  existsb (fun e => same_value_zero (fst e) k) m.

(** What every Map satisfies: no key occurs twice. *)
Fixpoint wf (m : t) : bool :=
  match m with
  | [] => true
  | (k, _) :: rest => negb (has k rest) && wf rest
  end.
End Map.

(** ** Outbound messages

    The object handed to [JSON.stringify] and then to [send]. *)

Module Info.
(** [{ sessionId, userName, trackInfo }] *)
Record t : Type := mk { sessionId : jsval; userName : jsval; trackInfo : jsval }.
End Info.

Inductive outbound : Type :=
| participantJoined (sessionId userName trackInfo : jsval)
| existingParticipants (participants : list Info.t)
| participantLeft (sessionId : jsval).

(** One [send]: the receiving socket and the message. *)
Definition sent : Type := (WebSocket * outbound)%type.

Definition fields_nesting (sessionId userName trackInfo : jsval) : nat :=
  Nat.max (nesting sessionId) (Nat.max (nesting userName) (nesting trackInfo)).

(** The levels [JSON.stringify] goes through for a message: the message
    object, for [existingParticipants] the array and each entry, and what the
    fields hold. *)
Definition message_nesting (m : outbound) : nat :=
  match m with
  | participantJoined sessionId userName trackInfo =>
      S (fields_nesting sessionId userName trackInfo)
  | existingParticipants participants =>
      S (S (list_max
              (map (fun i => S (fields_nesting (Info.sessionId i) (Info.userName i)
                                  (Info.trackInfo i)))
                 participants)))
  | participantLeft sessionId => S (nesting sessionId)
  end.

(** [JSON.stringify(m)] throws a RangeError. *)
Definition JSON_stringify_throws (rt : Runtime) (m : outbound) : bool :=
  Nat.ltb (3 + stringify_depth rt) (message_nesting m).

(** ** The room *)

Record ChatRoom : Type := mkRoom {
  sessions : list WebSocket;
  participants : Map.t
}.

(** The constructor. *)
Definition new_ChatRoom : ChatRoom := {| sessions := []; participants := Map.empty |}.

(** How a listener run ends.  The [message] and [close] listeners are async:
    a throw rejects a promise nobody awaits, and the room keeps what was
    written before it. *)
Inductive completion : Type :=
| Returned
| Threw (e : exn).

Definition result : Type := (completion * ChatRoom * list sent)%type.

Definition ws_eqb (a b : WebSocket) : bool := Nat.eqb a b.

Section Listeners.
(** The runtime the room lives in. *)
Variable rt : Runtime.

(** [readyState] of every socket while the listener runs. *)
Variable readyState : WebSocket -> ready_state.

(** What the [forEach] of the join branch sends when nothing throws: the
    note, to every other socket that is open. *)
Definition notify_joined (ws : WebSocket) (sessionId userName trackInfo : jsval)
    (sessions : list WebSocket) : list sent :=
  flat_map (fun session =>
    if negb (ws_eqb session ws) && is_OPEN (readyState session)
    then [(session, participantJoined sessionId userName trackInfo)]
    else []) sessions.

(** The loop that fills [existingParticipants]. *)
Fixpoint collect_existing (sessionId : jsval) (entries : list (jsval * Participant.t))
    : list Info.t :=
  match entries with
  | [] => []
  | (id, data) :: rest =>
      if negb (strict_equals id sessionId)
      then Info.mk id (Participant.userName data) (Participant.trackInfo data)
             :: collect_existing sessionId rest
      else collect_existing sessionId rest
  end.

(** That [forEach] as it runs: the callback serialises the note for each
    socket it sends to, before the send, and a throw ends the loop and the
    listener. *)
Fixpoint forEach_joined (ws : WebSocket) (note : outbound)
    (sessions : list WebSocket) : option exn * list sent :=
  match sessions with
  | [] => (None, [])
  | session :: rest =>
      if negb (ws_eqb session ws) && is_OPEN (readyState session) then
        if JSON_stringify_throws rt note then (Some RangeError, [])
        else
          let '(e, out) := forEach_joined ws note rest in
          (e, (session, note) :: out)
      else forEach_joined ws note rest
  end.

(** The message listener.  After the insert, the log line prints
    [`${userName}`] and then [sessionId.substring(0, 8)]; either can throw,
    and then the record stays but nothing is sent.  Serialising the note or
    the reply can throw as well. *)
Definition onmessage (room : ChatRoom) (ws : WebSocket) (data : frame) : result :=
  match JSON_parse data with
  | None => (Threw SyntaxError, room, [])
  | Some message =>
      if member_throws message then (Threw TypeError, room, [])
      else if strict_equals (member message "type") (JStr "joinRoom") then
        let sessionId := member message "sessionId" in
        let userName := member message "userName" in
        let trackInfo := member message "trackInfo" in
        let room1 :=
          {| sessions := sessions room;
             participants :=
               Map.set sessionId (Participant.mk ws userName trackInfo)
                 (participants room) |} in
        match to_string_error (print_depth rt) userName with
        | Some e => (Threw e, room1, [])
        | None =>
            if substring_throws sessionId then (Threw TypeError, room1, [])
            else
              match forEach_joined ws
                      (participantJoined sessionId userName trackInfo)
                      (sessions room1) with
              | (Some e, out) => (Threw e, room1, out)
              | (None, joined) =>
                  let existing :=
                    collect_existing sessionId (Map.entries (participants room1)) in
                  if is_OPEN (readyState ws) then
                    if JSON_stringify_throws rt (existingParticipants existing)
                    then (Threw RangeError, room1, joined)
                    else (Returned, room1, joined ++ [(ws, existingParticipants existing)])
                  else (Returned, room1, joined)
              end
        end
      else (Returned, room, [])
  end.

(** The scan of the close listener: the id of the first entry bound to
    [ws], where the loop deletes and breaks. *)
Fixpoint find_by_ws (ws : WebSocket) (entries : list (jsval * Participant.t))
    : option jsval :=
  match entries with
  | [] => None
  | (id, data) :: rest =>
      if ws_eqb (Participant.ws data) ws then Some id else find_by_ws ws rest
  end.

Definition notify_left (leavingSessionId : jsval) (sessions : list WebSocket)
    : list sent :=
  flat_map (fun session =>
    if is_OPEN (readyState session)
    then [(session, participantLeft leavingSessionId)]
    else []) sessions.

(** The close listener.  [leavingSessionId] starts [undefined]; the
    broadcast is guarded by [if (leavingSessionId)], and the log line before
    it calls [leavingSessionId.substring(0, 8)], so the id that is announced
    is a string and the message serialised has a single level. *)
Definition onclose (room : ChatRoom) (ws : WebSocket) : result :=
  let sessions1 := filter (fun s => negb (ws_eqb s ws)) (sessions room) in
  let '(leavingSessionId, participants1) :=
    match find_by_ws ws (Map.entries (participants room)) with
    | Some id => (id, Map.delete id (participants room))
    | None => (JUndefined, participants room)
    end in
  let room1 := {| sessions := sessions1; participants := participants1 |} in
  if truthy leavingSessionId then
    if substring_throws leavingSessionId then (Threw TypeError, room1, [])
    else (Returned, room1, notify_left leavingSessionId (sessions room1))
  else (Returned, room1, []).

(** The error listener only logs. *)
Definition onerror (room : ChatRoom) (ws : WebSocket) : result :=
  (Returned, room, []).

(** [handleWebSocket] itself: the push; the listeners it installs are
    reached through [dispatch]. *)
Definition handleWebSocket (room : ChatRoom) (ws : WebSocket) : result :=
  (Returned,
   {| sessions := sessions room ++ [ws]; participants := participants room |},
   []).
End Listeners.

(** ** Events of one room *)

Inductive event : Type :=
| Accepted (ws : WebSocket)
| MessageEvent (ws : WebSocket) (data : frame)
| CloseEvent (ws : WebSocket)
| ErrorEvent (ws : WebSocket).

Definition dispatch (rt : Runtime) (readyState : WebSocket -> ready_state)
    (room : ChatRoom) (ev : event) : result :=
  match ev with
  | Accepted ws => handleWebSocket room ws
  | MessageEvent ws data => onmessage rt readyState room ws data
  | CloseEvent ws => onclose readyState room ws
  | ErrorEvent ws => onerror room ws
  end.

Definition room_of (r : result) : ChatRoom := snd (fst r).
Definition sent_of (r : result) : list sent := snd r.
Definition completion_of (r : result) : completion := fst (fst r).

(** Events are handled one at a time, each with the ready states of its
    moment; the sends accumulate in order. *)
Fixpoint run (rt : Runtime) (room : ChatRoom)
    (trace : list ((WebSocket -> ready_state) * event)) : ChatRoom * list sent :=
  match trace with
  | [] => (room, [])
  | (readyState, ev) :: rest =>
      let r := dispatch rt readyState room ev in
      let '(room', out) := run rt (room_of r) rest in
      (room', sent_of r ++ out)
  end.

(** ** The entry points

    What the two [fetch] handlers read off a request: the path of its URL,
    the [room] query parameter and the [Upgrade] header ([null] when absent). *)

Record Request : Type := mkRequest {
  pathname : string;
  room_param : option string;
  Upgrade : option string
}.

(** A response body: none, a text, or the page. *)
Inductive Body : Type :=
| NoBody
| TextBody (text : string)
| HtmlBody.

Record Response : Type := mkResponse {
  status : nat;
  body : Body;
  webSocket : option WebSocket
}.

(** [request.headers.get(name) !== value]. *)
Definition header_differs (header : option string) (value : string) : bool :=
  match header with
  | Some v => negb (String.eqb v value)
  | None => true
  end.

(** [ChatRoom.fetch].  The runtime supplies the two ends of the new
    [WebSocketPair], client first. *)
Definition ChatRoom_fetch (room : ChatRoom) (request : Request)
    (webSocketPair : WebSocket * WebSocket) : Response * ChatRoom :=
  if String.eqb (pathname request) "/websocket" then
    if header_differs (Upgrade request) "websocket"
    then ({| status := 426; body := TextBody "Expected WebSocket"; webSocket := None |},
          room)
    else
      let '(client, server) := webSocketPair in
      ({| status := 101; body := NoBody; webSocket := Some client |},
       room_of (handleWebSocket room server))
  else ({| status := 404; body := TextBody "Not Found"; webSocket := None |}, room).

(** The rooms behind [env.CHAT_ROOM]: one coordinator per name, constructed
    empty the first time its name is asked for. *)
Definition Directory : Type := string -> ChatRoom.

Definition new_Directory : Directory := fun _ => new_ChatRoom.

Definition put_room (rooms : Directory) (name : string) (room : ChatRoom) : Directory :=
  fun n => if String.eqb n name then room else rooms n.

(** [value || fallback] on a string or [null]. *)
Definition or_else (value : option string) (fallback : string) : string :=
  match value with
  | Some v => if String.eqb v "" then fallback else v
  | None => fallback
  end.

(** The worker's [fetch]. *)
Definition index_default_fetch (rooms : Directory) (request : Request)
    (webSocketPair : WebSocket * WebSocket) : Response * Directory :=
  if String.eqb (pathname request) "/websocket" then
    let roomName := or_else (room_param request) "default-room" in
    let '(response, room) := ChatRoom_fetch (rooms roomName) request webSocketPair in
    (response, put_room rooms roomName room)
  else if String.eqb (pathname request) "/" then
    ({| status := 200; body := HtmlBody; webSocket := None |}, rooms)
  else ({| status := 404; body := TextBody "Not Found"; webSocket := None |}, rooms).

(** The first worker of the repository (src/worker.js): a Durable Object with
    a test endpoint, and a worker that calls it.  [now] is what
    [new Date().toISOString()] returns. *)
Module TestWorker.
Definition ChatRoom_fetch (pathname : string) : Response :=
  if String.eqb pathname "/test-do-endpoint"
  then {| status := 200; body := TextBody "Hello from the ChatRoom Durable Object!";
          webSocket := None |}
  else {| status := 200; body := TextBody "Request received by ChatRoom DO.";
          webSocket := None |}.

Definition fetch (pathname : string) (now : string) : Response :=
  if String.eqb pathname "/invoke-do"
  then ChatRoom_fetch "/test-do-endpoint"
  else {| status := 200;
          body := TextBody
                    (String.append
                       "Access /invoke-do to test the Durable Object. Current time is "
                       now);
          webSocket := None |}.
End TestWorker.

(** ** The whole worker

    What reaches the worker: a request, or an event on a socket, which runs
    the listener installed by the room that accepted the socket. *)

Inductive socket_event : Type :=
| OnMessage (ws : WebSocket) (data : frame)
| OnClose (ws : WebSocket)
| OnError (ws : WebSocket).

Definition event_of (e : socket_event) : event :=
  match e with
  | OnMessage ws data => MessageEvent ws data
  | OnClose ws => CloseEvent ws
  | OnError ws => ErrorEvent ws
  end.

Inductive input : Type :=
| FetchInput (request : Request) (webSocketPair : WebSocket * WebSocket)
| SocketInput (roomName : string) (e : socket_event).

Definition serve (rt : Runtime) (readyState : WebSocket -> ready_state)
    (rooms : Directory) (i : input) : Directory * list sent :=
  match i with
  | FetchInput request webSocketPair =>
      (snd (index_default_fetch rooms request webSocketPair), [])
  | SocketInput roomName e =>
      let r := dispatch rt readyState (rooms roomName) (event_of e) in
      (put_room rooms roomName (room_of r), sent_of r)
  end.

Fixpoint serve_all (rt : Runtime) (rooms : Directory)
    (trace : list ((WebSocket -> ready_state) * input)) : Directory * list sent :=
  match trace with
  | [] => (rooms, [])
  | (readyState, i) :: rest =>
      let '(rooms1, out1) := serve rt readyState rooms i in
      let '(rooms2, out2) := serve_all rt rooms1 rest in
      (rooms2, out1 ++ out2)
  end.

(** The events of one room among the inputs of the worker: the sockets it
    accepts and the events on them. *)
Definition events_of_room (name : string)
    (x : (WebSocket -> ready_state) * input) : list ((WebSocket -> ready_state) * event) :=
  match snd x with
  | FetchInput request webSocketPair =>
      if String.eqb (pathname request) "/websocket"
         && negb (header_differs (Upgrade request) "websocket")
         && String.eqb name (or_else (room_param request) "default-room")
      then [(fst x, Accepted (snd webSocketPair))]
      else []
  | SocketInput roomName e =>
      if String.eqb name roomName then [(fst x, event_of e)] else []
  end.

(** ** Keys up to the Map's comparison

    [same_value_zero] is the kernel of [key_of]: two keys are the same key
    exactly when [key_of] sends them to the same class. *)

Definition sf_key (f : spec_float) : spec_float :=
  match f with
  | S754_zero _ => S754_zero false
  | _ => f
  end.

Inductive key_class : Type :=
| KUndefined
| KNull
| KBool (b : bool)
| KNum (f : spec_float)
| KStr (s : string)
| KArr (addr : nat)
| KObj (addr : nat).

Definition key_of (v : jsval) : key_class :=
  match v with
  | JUndefined => KUndefined
  | JNull => KNull
  | JBool b => KBool b
  | JNum n => KNum (sf_key (Prim2SF n))
  | JStr s => KStr s
  | JArr a _ => KArr a
  | JObj a _ => KObj a
  end.

Definition keys (m : Map.t) : list key_class := map (fun e => key_of (fst e)) m.

(** The sockets the records are bound to, in registry order. *)
Definition owners (m : Map.t) : list WebSocket :=
  map (fun e => Participant.ws (snd e)) m.

(** What one socket received, in order. *)
Definition received (s : WebSocket) (out : list sent) : list outbound :=
  map snd (filter (fun m => ws_eqb (fst m) s) out).

(** ** Vocabulary of the statements *)

(** [snapshot(excludingId)] as the design describes it: the public fields of
    every record except the one whose id is [excludingId]. *)
Definition public (e : jsval * Participant.t) : Info.t :=
  Info.mk (fst e) (Participant.userName (snd e)) (Participant.trackInfo (snd e)).

Definition snapshot (excludingId : jsval) (m : Map.t) : list Info.t :=
  map public (filter (fun e => negb (strict_equals (fst e) excludingId)) m).

(** How many records are stored under one id. *)
Definition records_under (id : jsval) (m : Map.t) : nat :=
  List.length (filter (fun e => same_value_zero (fst e) id) m).

(** The notification a join with these fields broadcasts. *)
Definition joined_note (message : jsval) : outbound :=
  participantJoined (member message "sessionId")
    (member message "userName") (member message "trackInfo").

(** The record a join from [ws] with these fields stores. *)
Definition record_of (ws : WebSocket) (message : jsval) : Participant.t :=
  Participant.mk ws (member message "userName") (member message "trackInfo").

(** A parsed frame that is a join under the string id [sid] and that the
    runtime can print and announce: its user name converts to a string and its
    note can be serialised.  These are the joins that get to the broadcast. *)
Definition joins_as (rt : Runtime) (sid : string) (message : jsval) : Prop :=
  strict_equals (member message "type") (JStr "joinRoom") = true
  /\ member message "sessionId" = JStr sid
  /\ to_string_error (print_depth rt) (member message "userName") = None
  /\ JSON_stringify_throws rt (joined_note message) = false.

(** The error of the log line of a join, if it throws: the conversion of
    the user name comes first, then [sessionId.substring]. *)
Definition log_line_error (rt : Runtime) (message : jsval) : option exn :=
  match to_string_error (print_depth rt) (member message "userName") with
  | Some e => Some e
  | None =>
      if substring_throws (member message "sessionId") then Some TypeError else None
  end.

(** The ids of a list that are strings. *)
Definition string_ids (l : list Info.t) : list string :=
  flat_map (fun i => match Info.sessionId i with JStr s => [s] | _ => [] end) l.

(** [sessions.filter((s) => s !== ws)]. *)
Definition without (ws : WebSocket) (l : list WebSocket) : list WebSocket :=
  filter (fun s => negb (ws_eqb s ws)) l.

(** The order the size invariant rests on: a join comes from a socket that
    is in [sessions], and every record bound to that socket already carries
    the id it joins under. *)
Definition join_in_order (room : ChatRoom) (ws : WebSocket) (message : jsval) : bool :=
  existsb (ws_eqb ws) (sessions room)
  && forallb (fun e => negb (ws_eqb (Participant.ws (snd e)) ws)
                       || same_value_zero (fst e) (member message "sessionId"))
       (participants room).

Definition event_in_order (room : ChatRoom) (ev : event) : bool :=
  match ev with
  | MessageEvent ws (Text message) =>
      if strict_equals (member message "type") (JStr "joinRoom")
      then join_in_order room ws message
      else true
  | _ => true
  end.

Fixpoint in_order (rt : Runtime) (room : ChatRoom)
    (trace : list ((WebSocket -> ready_state) * event)) : bool :=
  match trace with
  | [] => true
  | (readyState, ev) :: rest =>
      event_in_order room ev
      && in_order rt (room_of (dispatch rt readyState room ev)) rest
  end.

(** Every record has a socket of its own among the sessions. *)
Definition bound (room : ChatRoom) : Prop :=
  Map.wf (participants room) = true
  /\ NoDup (owners (participants room))
  /\ incl (owners (participants room)) (sessions room).

(** ** Sample inputs *)

(** The frame the page sends on open, for a given session id and name. *)
Definition join_message (id name : string) : jsval :=
  JObj 0 [("type", JStr "joinRoom"); ("sessionId", JStr id);
          ("userName", JStr name); ("trackInfo", JArr 1 [])].

Definition all_open : WebSocket -> ready_state := fun _ => OPEN.

(** A runtime with room for eight levels of either kind, more than the
    sample frames have. *)
Definition sample_runtime : Runtime := {| print_depth := 8; stringify_depth := 8 |}.

(** Socket 1 has joined as a1; sockets 2 and 3 are connected. *)
Definition room_a : ChatRoom :=
  {| sessions := [1; 2; 3];
     participants := [(JStr "a1", Participant.mk 1 (JStr "A") (JArr 1 []))] |}.

(** * Properties *)

Lemma SFeqb_iff (a b : spec_float) :
  SFeqb a b = true <-> a <> S754_nan /\ sf_key a = sf_key b.
Proof.
  unfold SFeqb, SFcompare.
  destruct a as [sa|sa| |sa ma ea], b as [sb|sb| |sb mb eb];
    try solve
      [ repeat match goal with s : bool |- _ => destruct s end;
        simpl;
        (split;
         [ intros H;
           first [discriminate H | split; [discriminate | reflexivity]]
         | intros [H1 H2]; first [reflexivity | congruence] ]) ].
  destruct (Z.compare ea eb) eqn:He;
    destruct (Pos.compare ma mb) eqn:Hm;
    unfold Pos.compare in Hm;
    destruct sa, sb; simpl; rewrite ?He, ?Hm; simpl;
    try solve
      [ apply Z.compare_eq_iff in He; apply Pos.compare_eq_iff in Hm; subst;
        (split; [intros _; split; [discriminate | reflexivity] | reflexivity]) ];
    (split; [discriminate | intros [_ H]; try discriminate H]);
    injection H as -> ->;
    first [ rewrite Z.compare_refl in He; discriminate He
          | change (Pos.compare mb mb = Lt) in Hm;
            rewrite Pos.compare_refl in Hm; discriminate Hm
          | change (Pos.compare mb mb = Gt) in Hm;
            rewrite Pos.compare_refl in Hm; discriminate Hm ].
Qed.

Lemma SFeqb_self (a : spec_float) : SFeqb a a = false -> a = S754_nan.
Proof.
  intros H. destruct a as [s|s| |s m e]; try reflexivity; exfalso.
  - assert (E : SFeqb (S754_zero s) (S754_zero s) = true)
      by (apply SFeqb_iff; split; [discriminate | reflexivity]).
    congruence.
  - assert (E : SFeqb (S754_infinity s) (S754_infinity s) = true)
      by (apply SFeqb_iff; split; [discriminate | reflexivity]).
    congruence.
  - assert (E : SFeqb (S754_finite s m e) (S754_finite s m e) = true)
      by (apply SFeqb_iff; split; [discriminate | reflexivity]).
    congruence.
Qed.

Lemma number_key_iff (x y : float) :
  (PrimFloat.eqb x y || (is_nan x && is_nan y)) = true
  <-> sf_key (Prim2SF x) = sf_key (Prim2SF y).
Proof.
  unfold is_nan. rewrite !eqb_spec.
  set (a := Prim2SF x). set (b := Prim2SF y).
  destruct (SFeqb a b) eqn:Eab.
  - simpl. apply SFeqb_iff in Eab. tauto.
  - simpl. split.
    + intros H. apply andb_true_iff in H. destruct H as [Ha Hb].
      apply negb_true_iff in Ha, Hb.
      apply SFeqb_self in Ha, Hb. rewrite Ha, Hb. reflexivity.
    + intros H.
      destruct (SFeqb a a) eqn:Ea.
      * assert (E : SFeqb a b = true).
        { apply SFeqb_iff. split; [|exact H].
          apply SFeqb_iff in Ea. tauto. }
        congruence.
      * apply SFeqb_self in Ea. rewrite Ea in *.
        destruct b; try discriminate H. reflexivity.
Qed.

Lemma same_value_zero_iff (a b : jsval) :
  same_value_zero a b = true <-> key_of a = key_of b.
Proof.
  destruct a, b; simpl; try (split; [discriminate | discriminate]);
    try (split; reflexivity).
  - rewrite Bool.eqb_true_iff. split; congruence.
  - rewrite number_key_iff. split; congruence.
  - rewrite String.eqb_eq. split; congruence.
  - rewrite Nat.eqb_eq. split; congruence.
  - rewrite Nat.eqb_eq. split; congruence.
Qed.

Lemma same_value_zero_false_iff (a b : jsval) :
  same_value_zero a b = false <-> key_of a <> key_of b.
Proof.
  rewrite <- same_value_zero_iff. destruct (same_value_zero a b); split; congruence.
Qed.

Lemma same_value_zero_refl (a : jsval) : same_value_zero a a = true.
Proof. apply same_value_zero_iff. reflexivity. Qed.

Lemma key_of_canonical (k : jsval) : key_of (Map.canonical k) = key_of k.
Proof.
  destruct k; try reflexivity. unfold Map.canonical.
  destruct (PrimFloat.eqb n 0) eqn:E; [|reflexivity].
  unfold key_of. f_equal. symmetry.
  apply (number_key_iff n 0). rewrite E. reflexivity.
Qed.

(** On a string id, [===] and the Map's comparison agree, and both are
    equality with that string. *)
Lemma strict_equals_string (k : jsval) (s : string) :
  strict_equals k (JStr s) = same_value_zero k (JStr s).
Proof. destruct k; reflexivity. Qed.

Lemma strict_equals_string_iff (k : jsval) (s : string) :
  strict_equals k (JStr s) = true <-> k = JStr s.
Proof.
  destruct k; simpl; try (split; discriminate).
  rewrite String.eqb_eq. split; congruence.
Qed.

(** ** The Map operations *)

Lemma has_iff (k : jsval) (m : Map.t) :
  Map.has k m = true <-> In (key_of k) (keys m).
Proof.
  unfold Map.has, keys. rewrite existsb_exists, in_map_iff.
  split; intros [e [H1 H2]]; exists e.
  - apply same_value_zero_iff in H2. auto.
  - split; [assumption | apply same_value_zero_iff; assumption].
Qed.

Lemma has_false_iff (k : jsval) (m : Map.t) :
  Map.has k m = false <-> ~ In (key_of k) (keys m).
Proof.
  rewrite <- has_iff. destruct (Map.has k m); split; congruence.
Qed.

Lemma wf_iff (m : Map.t) : Map.wf m = true <-> NoDup (keys m).
Proof.
  induction m as [|[k v] rest IH]; simpl.
  - split; [constructor | reflexivity].
  - rewrite andb_true_iff, negb_true_iff, has_false_iff, IH.
    split.
    + intros [H1 H2]. constructor; assumption.
    + intros H. inversion H; subst. split; assumption.
Qed.

Lemma keys_set (k : jsval) (v : Participant.t) (m : Map.t) :
  keys (Map.set k v m) = if Map.has k m then keys m else keys m ++ [key_of k].
Proof.
  induction m as [|[k' v'] rest IH].
  - simpl. rewrite key_of_canonical. reflexivity.
  - cbn [Map.set]. unfold Map.has. cbn [existsb fst].
    destruct (same_value_zero k' k) eqn:E; cbn [orb].
    + reflexivity.
    + change (existsb (fun e => same_value_zero (fst e) k) rest) with (Map.has k rest).
      change (keys ((k', v') :: Map.set k v rest))
        with (key_of k' :: keys (Map.set k v rest)).
      rewrite IH. destruct (Map.has k rest); reflexivity.
Qed.

Lemma size_set (k : jsval) (v : Participant.t) (m : Map.t) :
  Map.size (Map.set k v m) = if Map.has k m then Map.size m else S (Map.size m).
Proof.
  assert (H : List.length (keys (Map.set k v m))
              = List.length (if Map.has k m then keys m else keys m ++ [key_of k]))
    by (rewrite keys_set; reflexivity).
  unfold keys in H at 1. rewrite length_map in H. unfold Map.size. rewrite H.
  destruct (Map.has k m); unfold keys.
  - apply length_map.
  - rewrite length_app, length_map. simpl. lia.
Qed.

Lemma wf_set (k : jsval) (v : Participant.t) (m : Map.t) :
  Map.wf m = true -> Map.wf (Map.set k v m) = true.
Proof.
  rewrite !wf_iff, keys_set. intros H.
  destruct (Map.has k m) eqn:E; [assumption|].
  apply has_false_iff in E.
  apply NoDup_app; [assumption | repeat constructor; intros [] | ].
  intros x Hx [Hk|[]]. subst x. contradiction.
Qed.

Lemma has_set (k : jsval) (v : Participant.t) (m : Map.t) :
  Map.has k (Map.set k v m) = true.
Proof.
  apply has_iff. rewrite keys_set.
  destruct (Map.has k m) eqn:E.
  - apply has_iff. assumption.
  - apply in_or_app. right. left. reflexivity.
Qed.

(** Last write wins. *)
Lemma get_set (k k' : jsval) (v : Participant.t) (m : Map.t) :
  key_of k' = key_of k -> Map.get k' (Map.set k v m) = Some v.
Proof.
  intros Hk. induction m as [|[k0 v0] rest IH]; simpl.
  - replace (same_value_zero (Map.canonical k) k') with true; [reflexivity|].
    symmetry. apply same_value_zero_iff. rewrite key_of_canonical. congruence.
  - destruct (same_value_zero k0 k) eqn:E; simpl.
    + replace (same_value_zero k0 k') with true; [reflexivity|].
      symmetry. apply same_value_zero_iff. apply same_value_zero_iff in E. congruence.
    + replace (same_value_zero k0 k') with false; [exact IH|].
      symmetry. apply same_value_zero_false_iff.
      apply same_value_zero_false_iff in E. congruence.
Qed.

Lemma in_set_other (k id : jsval) (v d : Participant.t) (m : Map.t) :
  In (id, d) m -> key_of id <> key_of k -> In (id, d) (Map.set k v m).
Proof.
  intros Hin Hne. induction m as [|[k0 v0] rest IH]; [contradiction|].
  simpl. destruct (same_value_zero k0 k) eqn:E.
  - destruct Hin as [Heq|Hin]; [|right; assumption].
    inversion Heq; subst. apply same_value_zero_iff in E. contradiction.
  - destruct Hin as [Heq|Hin]; [left; assumption | right; auto].
Qed.

Lemma in_set_inv (k id : jsval) (v d : Participant.t) (m : Map.t) :
  In (id, d) (Map.set k v m) ->
  (d = v /\ key_of id = key_of k) \/ In (id, d) m.
Proof.
  induction m as [|[k0 v0] rest IH]; simpl.
  - intros [H|[]]. inversion H; subst. left. split; [reflexivity | apply key_of_canonical].
  - destruct (same_value_zero k0 k) eqn:E.
    + intros [H|H].
      * inversion H; subst. left. split; [reflexivity|].
        apply same_value_zero_iff. assumption.
      * right. right. assumption.
    + intros [H|H].
      * right. left. assumption.
      * destruct (IH H) as [H'|H']; [left | right; right]; assumption.
Qed.

Lemma in_delete (k id : jsval) (d : Participant.t) (m : Map.t) :
  In (id, d) (Map.delete k m) -> In (id, d) m.
Proof.
  induction m as [|[k0 v0] rest IH]; simpl; [tauto|].
  destruct (same_value_zero k0 k).
  - intros H. right. assumption.
  - intros [H|H]; [left | right; apply IH]; assumption.
Qed.

Lemma keys_delete_incl (k : jsval) (m : Map.t) (x : key_class) :
  In x (keys (Map.delete k m)) -> In x (keys m).
Proof.
  unfold keys. rewrite !in_map_iff. intros [[id d] [H1 H2]].
  exists (id, d). split; [assumption | eapply in_delete; eassumption].
Qed.

Lemma wf_delete (k : jsval) (m : Map.t) :
  Map.wf m = true -> Map.wf (Map.delete k m) = true.
Proof.
  rewrite !wf_iff.
  induction m as [|[k0 v0] rest IH]; simpl; [auto|].
  intros H. inversion H as [|x l Hx Hl]; subst.
  destruct (same_value_zero k0 k); [assumption|].
  change (NoDup (key_of k0 :: keys (Map.delete k rest))).
  constructor; [|auto].
  intros Hin. apply Hx. eapply keys_delete_incl. eassumption.
Qed.

Lemma get_delete (k : jsval) (m : Map.t) :
  Map.wf m = true -> Map.get k (Map.delete k m) = None.
Proof.
  induction m as [|[k0 v0] rest IH]; simpl; [reflexivity|].
  rewrite andb_true_iff, negb_true_iff. intros [Hh Hw].
  destruct (same_value_zero k0 k) eqn:E.
  - apply same_value_zero_iff in E.
    assert (Hk : Map.has k rest = false).
    { apply has_false_iff. rewrite <- E. apply has_false_iff. assumption. }
    clear - Hk. induction rest as [|[k1 v1] rest IH]; simpl; [reflexivity|].
    unfold Map.has in Hk. simpl in Hk. apply orb_false_iff in Hk.
    destruct Hk as [H1 H2]. rewrite H1. apply IH. assumption.
  - simpl. rewrite E. auto.
Qed.

(** ** What one socket receives *)

Section Received.
Variable rt : Runtime.
Variable readyState : WebSocket -> ready_state.

Lemma received_app (s : WebSocket) (a b : list sent) :
  received s (a ++ b) = received s a ++ received s b.
Proof. unfold received. rewrite filter_app, map_app. reflexivity. Qed.

Lemma received_one (s x : WebSocket) (c : bool) (o : outbound) :
  received s (if c then [(x, o)] else [])
  = if c && ws_eqb x s then [o] else [].
Proof.
  destruct c; [|reflexivity]. unfold received. cbn [filter fst andb].
  destruct (ws_eqb x s); reflexivity.
Qed.

Lemma received_notify_joined (s ws : WebSocket) (sid u t : jsval)
    (l : list WebSocket) :
  received s (notify_joined readyState ws sid u t l)
  = if negb (ws_eqb s ws) && is_OPEN (readyState s)
    then repeat (participantJoined sid u t) (count_occ Nat.eq_dec l s)
    else [].
Proof.
  unfold notify_joined.
  induction l as [|x l IH]; cbn [flat_map count_occ].
  - destruct (negb (ws_eqb s ws) && is_OPEN (readyState s)); reflexivity.
  - rewrite received_app, IH, received_one. clear IH.
    destruct (Nat.eq_dec x s) as [->|Hne].
    + unfold ws_eqb at 2. rewrite Nat.eqb_refl, andb_true_r.
      destruct (negb (ws_eqb s ws) && is_OPEN (readyState s)); reflexivity.
    + unfold ws_eqb at 2. apply Nat.eqb_neq in Hne. rewrite Hne, andb_false_r.
      reflexivity.
Qed.

Lemma received_notify_left (s : WebSocket) (id : jsval) (l : list WebSocket) :
  received s (notify_left readyState id l)
  = if is_OPEN (readyState s)
    then repeat (participantLeft id) (count_occ Nat.eq_dec l s)
    else [].
Proof.
  unfold notify_left.
  induction l as [|x l IH]; cbn [flat_map count_occ].
  - destruct (is_OPEN (readyState s)); reflexivity.
  - rewrite received_app, IH, received_one. clear IH.
    destruct (Nat.eq_dec x s) as [->|Hne].
    + unfold ws_eqb. rewrite Nat.eqb_refl, andb_true_r.
      destruct (is_OPEN (readyState s)); reflexivity.
    + unfold ws_eqb. apply Nat.eqb_neq in Hne. rewrite Hne, andb_false_r.
      reflexivity.
Qed.

Lemma collect_existing_snapshot (sessionId : jsval) (m : Map.t) :
  collect_existing sessionId (Map.entries m) = snapshot sessionId m.
Proof.
  unfold Map.entries, snapshot.
  induction m as [|[id data] rest IH]; simpl; [reflexivity|].
  destruct (strict_equals id sessionId); simpl; rewrite IH; reflexivity.
Qed.

(** The loop either sends every note or throws at the first socket it
    would send to. *)
Lemma forEach_joined_fits (ws : WebSocket) (a b c : jsval) (l : list WebSocket) :
  JSON_stringify_throws rt (participantJoined a b c) = false ->
  forEach_joined rt readyState ws (participantJoined a b c) l
  = (None, notify_joined readyState ws a b c l).
Proof.
  intros Hfit. unfold notify_joined.
  induction l as [|x l IH]; cbn [forEach_joined flat_map]; [reflexivity|].
  destruct (negb (ws_eqb x ws) && is_OPEN (readyState x)).
  - rewrite Hfit, IH. reflexivity.
  - exact IH.
Qed.

Lemma forEach_joined_cases (ws : WebSocket) (a b c : jsval) (l : list WebSocket) :
  forEach_joined rt readyState ws (participantJoined a b c) l
  = (None, notify_joined readyState ws a b c l)
  \/ forEach_joined rt readyState ws (participantJoined a b c) l
     = (Some RangeError, []).
Proof.
  destruct (JSON_stringify_throws rt (participantJoined a b c)) eqn:Hfit;
    [|left; apply forEach_joined_fits; exact Hfit].
  unfold notify_joined.
  induction l as [|x l IH]; cbn [forEach_joined flat_map]; [left; reflexivity|].
  destruct (negb (ws_eqb x ws) && is_OPEN (readyState x)).
  - rewrite Hfit. right. reflexivity.
  - exact IH.
Qed.

(** A join that the runtime can print and announce runs to the reply. *)
Lemma onmessage_join (room : ChatRoom) (ws : WebSocket) (message : jsval)
    (sid : string) :
  joins_as rt sid message ->
  let room1 :=
    {| sessions := sessions room;
       participants := Map.set (JStr sid) (record_of ws message) (participants room) |} in
  let joined :=
    notify_joined readyState ws (JStr sid) (member message "userName")
      (member message "trackInfo") (sessions room) in
  let reply := existingParticipants (snapshot (JStr sid) (participants room1)) in
  onmessage rt readyState room ws (Text message)
  = if is_OPEN (readyState ws) then
      if JSON_stringify_throws rt reply
      then (Threw RangeError, room1, joined)
      else (Returned, room1, joined ++ [(ws, reply)])
    else (Returned, room1, joined).
Proof.
  intros [Hty [Hsid [Hname Hnote]]] room1 joined reply.
  unfold onmessage. cbn [JSON_parse].
  assert (Hm : member_throws message = false).
  { destruct message; try reflexivity; simpl in Hty; discriminate. }
  unfold joined_note in Hnote. rewrite Hsid in Hnote.
  rewrite Hm, Hty, Hsid, Hname. cbn [substring_throws sessions participants].
  rewrite (forEach_joined_fits _ _ _ _ _ Hnote).
  rewrite collect_existing_snapshot. reflexivity.
Qed.

(** Whatever its fields, a join writes its record before anything else. *)
Lemma onmessage_join_room (room : ChatRoom) (ws : WebSocket) (message : jsval) :
  strict_equals (member message "type") (JStr "joinRoom") = true ->
  room_of (onmessage rt readyState room ws (Text message))
  = {| sessions := sessions room;
       participants :=
         Map.set (member message "sessionId") (record_of ws message)
           (participants room) |}.
Proof.
  intros Hty. unfold onmessage. cbn [JSON_parse].
  assert (Hm : member_throws message = false).
  { destruct message; try reflexivity; simpl in Hty; discriminate. }
  rewrite Hm, Hty.
  destruct (to_string_error (print_depth rt) (member message "userName"));
    [reflexivity|].
  destruct (substring_throws (member message "sessionId")); [reflexivity|].
  cbn [sessions].
  destruct (forEach_joined rt readyState ws
              (participantJoined (member message "sessionId")
                 (member message "userName") (member message "trackInfo"))
              (sessions room)) as [[e|] out]; [reflexivity|].
  destruct (is_OPEN (readyState ws)); [|reflexivity].
  match goal with |- context [if ?c then _ else _] => destruct c end; reflexivity.
Qed.

(** What a join sends to a socket other than the sender. *)
Lemma join_received_other (room : ChatRoom) (ws s : WebSocket)
    (message : jsval) (sid : string) :
  joins_as rt sid message ->
  s <> ws ->
  received s (sent_of (onmessage rt readyState room ws (Text message)))
  = if is_OPEN (readyState s)
    then repeat (joined_note message) (count_occ Nat.eq_dec (sessions room) s)
    else [].
Proof.
  intros Hj Hs. pose proof Hj as [_ [Hsid _]].
  assert (Hjoined :
            received s
              (notify_joined readyState ws (JStr sid) (member message "userName")
                 (member message "trackInfo") (sessions room))
            = if is_OPEN (readyState s)
              then repeat (joined_note message)
                     (count_occ Nat.eq_dec (sessions room) s)
              else []).
  { rewrite received_notify_joined. unfold ws_eqb.
    rewrite (proj2 (Nat.eqb_neq s ws) Hs). cbn [negb andb].
    unfold joined_note. rewrite Hsid. reflexivity. }
  rewrite (onmessage_join room ws message sid Hj). cbv zeta.
  destruct (is_OPEN (readyState ws)); [|exact Hjoined].
  match goal with |- context [if ?c then _ else _] => destruct c end;
    unfold sent_of; cbn [snd]; [exact Hjoined|].
  rewrite received_app, Hjoined.
  unfold received. cbn [filter fst]. unfold ws_eqb.
  rewrite (proj2 (Nat.eqb_neq ws s) (fun H => Hs (eq_sym H))).
  cbn [map]. apply app_nil_r.
Qed.

(** What a join sends back to the sender. *)
Lemma join_received_self (room : ChatRoom) (ws : WebSocket)
    (message : jsval) (sid : string) :
  joins_as rt sid message ->
  let reply :=
    existingParticipants
      (snapshot (JStr sid)
         (participants (room_of (onmessage rt readyState room ws (Text message))))) in
  received ws (sent_of (onmessage rt readyState room ws (Text message)))
  = if is_OPEN (readyState ws) && negb (JSON_stringify_throws rt reply)
    then [reply]
    else [].
Proof.
  intros Hj reply. pose proof Hj as [Hty [Hsid _]].
  unfold reply. rewrite (onmessage_join_room room ws message Hty), Hsid.
  cbn [participants].
  assert (Hjoined :
            received ws
              (notify_joined readyState ws (JStr sid) (member message "userName")
                 (member message "trackInfo") (sessions room)) = []).
  { rewrite received_notify_joined. unfold ws_eqb. rewrite Nat.eqb_refl.
    reflexivity. }
  rewrite (onmessage_join room ws message sid Hj). cbv zeta. cbn [participants].
  destruct (is_OPEN (readyState ws)); cbn [andb]; [|exact Hjoined].
  destruct (JSON_stringify_throws rt
              (existingParticipants
                 (snapshot (JStr sid)
                    (Map.set (JStr sid) (record_of ws message) (participants room)))));
    unfold sent_of; cbn [snd negb]; [exact Hjoined|].
  rewrite received_app, Hjoined.
  unfold received. cbn [filter fst]. unfold ws_eqb. rewrite Nat.eqb_refl.
  reflexivity.
Qed.

End Received.

(** ** Frames that are not a join *)

(** C7: a frame that does not parse is ignored.  [JSON.parse] throws before
    anything is read or written: the room is as before, nothing is sent (the
    coordinator never closes a socket, so the connection stays as it was), and
    the events that follow are handled as if the frame had not arrived. *)
Theorem malformed_frame_ignored (rt : Runtime) (readyState : WebSocket -> ready_state)
    (room : ChatRoom) (ws : WebSocket)
    (rest : list ((WebSocket -> ready_state) * event)) :
  onmessage rt readyState room ws Malformed = (Threw SyntaxError, room, [])
  /\ room_of (dispatch rt readyState room (MessageEvent ws Malformed)) = room
  /\ sent_of (dispatch rt readyState room (MessageEvent ws Malformed)) = []
  /\ run rt room ((readyState, MessageEvent ws Malformed) :: rest) = run rt room rest.
Proof.
  repeat split.
  cbn [run dispatch onmessage JSON_parse room_of sent_of fst snd].
  destruct (run rt room rest) as [room' out]. reflexivity.
Qed.

(** C8: a parsed message whose [type] is not ['joinRoom'] is ignored: the
    sessions and the registry are unchanged and nothing is sent.  The listener
    returns normally, except on [null] (and [undefined]), where reading [type]
    throws before anything is done. *)
Theorem other_message_ignored (rt : Runtime) (readyState : WebSocket -> ready_state)
    (room : ChatRoom) (ws : WebSocket) (message : jsval) :
  strict_equals (member message "type") (JStr "joinRoom") = false ->
  let r := onmessage rt readyState room ws (Text message) in
  sessions (room_of r) = sessions room
  /\ participants (room_of r) = participants room
  /\ room_of r = room
  /\ sent_of r = []
  /\ (member_throws message = false -> r = (Returned, room, [])).
Proof.
  intros Hty r. unfold r, onmessage. cbn [JSON_parse]. rewrite Hty.
  destruct (member_throws message); repeat split; intros H; discriminate H.
Qed.

Lemma other_message_ignored_witness :
  onmessage sample_runtime all_open room_a 2
    (Text (JObj 0 [("type", JStr "iceCandidate"); ("sessionId", JStr "b1")]))
  = (Returned, room_a, [])
  /\ sent_of (onmessage sample_runtime all_open room_a 2 (Text JNull)) = [].
Proof.
  split.
  - apply (other_message_ignored sample_runtime all_open room_a 2
             (JObj 0 [("type", JStr "iceCandidate"); ("sessionId", JStr "b1")])
             eq_refl).
    reflexivity.
  - apply (other_message_ignored sample_runtime all_open room_a 2 JNull eq_refl).
Defined.

(** ** The join branch *)

(** C6: the [participantJoined] broadcast of a join that reaches it (string
    id, a name the runtime can print, a note it can serialise).  Every socket
    other than the sender gets the note once per place it holds in [sessions]
    if it is open and nothing if it is not, whatever the state of the other
    sockets; the sender gets no note.  Nothing is raised before or during the
    broadcast: the listener returns normally, unless the reply that follows
    the broadcast cannot be serialised. *)
Theorem participantJoined_broadcast (rt : Runtime)
    (readyState : WebSocket -> ready_state)
    (room : ChatRoom) (ws : WebSocket) (message : jsval) (sid : string) :
  joins_as rt sid message ->
  let r := onmessage rt readyState room ws (Text message) in
  let reply :=
    existingParticipants (snapshot (JStr sid) (participants (room_of r))) in
  completion_of r
  = (if is_OPEN (readyState ws) && JSON_stringify_throws rt reply
     then Threw RangeError
     else Returned)
  /\ (forall s, s <> ws ->
        received s (sent_of r)
        = if is_OPEN (readyState s)
          then repeat (joined_note message) (count_occ Nat.eq_dec (sessions room) s)
          else [])
  /\ (NoDup (sessions room) ->
      forall s, In s (sessions room) -> s <> ws -> readyState s = OPEN ->
        received s (sent_of r) = [joined_note message])
  /\ (forall o, In o (received ws (sent_of r)) ->
        forall a b c, o <> participantJoined a b c).
Proof.
  intros Hj r reply.
  pose proof Hj as [Hty [Hsid _]].
  assert (Hothers : forall s, s <> ws ->
            received s (sent_of r)
            = if is_OPEN (readyState s)
              then repeat (joined_note message)
                     (count_occ Nat.eq_dec (sessions room) s)
              else [])
    by (intros s Hs; apply join_received_other with (sid := sid); assumption).
  split.
  { unfold reply, r.
    rewrite (onmessage_join_room rt readyState room ws message Hty), Hsid.
    rewrite (onmessage_join rt readyState room ws message sid Hj).
    cbv zeta. cbn [participants].
    destruct (is_OPEN (readyState ws)); [|reflexivity].
    destruct (JSON_stringify_throws rt
                (existingParticipants
                   (snapshot (JStr sid)
                      (Map.set (JStr sid) (record_of ws message) (participants room)))));
      reflexivity. }
  split; [exact Hothers|].
  split.
  - intros Hnd s Hin Hs Hopen. rewrite (Hothers s Hs), Hopen. cbn [is_OPEN].
    assert (Hc : count_occ Nat.eq_dec (sessions room) s = 1).
    { apply NoDup_count_occ' with (decA := Nat.eq_dec); assumption. }
    rewrite Hc. reflexivity.
  - intros o Ho a b c Heq. subst o. unfold r in Ho.
    rewrite (join_received_self rt readyState room ws message sid Hj) in Ho.
    match type of Ho with In _ (if ?c then _ else _) => destruct c end.
    + destruct Ho as [Ho|[]]. discriminate Ho.
    + destruct Ho.
Qed.

Lemma participantJoined_broadcast_witness :
  received 1
    (sent_of (onmessage sample_runtime (fun s => if Nat.eqb s 3 then CLOSED else OPEN)
                room_a 2 (Text (join_message "b1" "B"))))
  = [participantJoined (JStr "b1") (JStr "B") (JArr 1 [])]
  /\ received 3
       (sent_of (onmessage sample_runtime (fun s => if Nat.eqb s 3 then CLOSED else OPEN)
                   room_a 2 (Text (join_message "b1" "B"))))
     = [].
Proof.
  destruct (participantJoined_broadcast sample_runtime
              (fun s => if Nat.eqb s 3 then CLOSED else OPEN)
              room_a 2 (join_message "b1" "B") "b1"
              (conj eq_refl (conj eq_refl (conj eq_refl eq_refl)))) as [_ [H _]].
  split.
  - exact (H 1 ltac:(discriminate)).
  - exact (H 3 ltac:(discriminate)).
Defined.

(** C10: when the sender's own socket is not open at the end of a join, the
    [existingParticipants] reply is skipped and the sender receives nothing;
    the listener still returns normally, the record is in the registry and
    every other open socket has its [participantJoined]. *)
Theorem join_without_reply (rt : Runtime) (readyState : WebSocket -> ready_state)
    (room : ChatRoom) (ws : WebSocket) (message : jsval) (sid : string) :
  joins_as rt sid message ->
  is_OPEN (readyState ws) = false ->
  let r := onmessage rt readyState room ws (Text message) in
  completion_of r = Returned
  /\ received ws (sent_of r) = []
  /\ (forall s l, ~ In (s, existingParticipants l) (sent_of r))
  /\ Map.get (JStr sid) (participants (room_of r)) = Some (record_of ws message)
  /\ (forall s, s <> ws ->
        received s (sent_of r)
        = if is_OPEN (readyState s)
          then repeat (joined_note message) (count_occ Nat.eq_dec (sessions room) s)
          else []).
Proof.
  intros Hj Hclosed r.
  pose proof Hj as [Hty [Hsid _]].
  assert (Hr : r = onmessage rt readyState room ws (Text message)) by reflexivity.
  rewrite (onmessage_join rt readyState room ws message sid Hj) in Hr.
  cbv zeta in Hr. rewrite Hclosed in Hr.
  split; [rewrite Hr; reflexivity|].
  split.
  { unfold r. rewrite (join_received_self rt readyState room ws message sid Hj).
    rewrite Hclosed. reflexivity. }
  split.
  { intros s l Hin. rewrite Hr in Hin. unfold sent_of in Hin. cbn [snd] in Hin.
    unfold notify_joined in Hin. apply in_flat_map in Hin.
    destruct Hin as [x [_ Hx]].
    destruct (negb (ws_eqb x ws) && is_OPEN (readyState x)).
    - destruct Hx as [Hx|[]]. discriminate Hx.
    - destruct Hx. }
  split.
  { rewrite Hr. unfold room_of. cbn [fst snd participants].
    apply get_set. reflexivity. }
  intros s Hs. apply join_received_other with (sid := sid); assumption.
Qed.

Lemma join_without_reply_witness :
  received 2
    (sent_of (onmessage sample_runtime (fun s => if Nat.eqb s 2 then CLOSING else OPEN)
                room_a 2 (Text (join_message "b1" "B")))) = []
  /\ Map.get (JStr "b1")
       (participants
          (room_of (onmessage sample_runtime
                      (fun s => if Nat.eqb s 2 then CLOSING else OPEN)
                      room_a 2 (Text (join_message "b1" "B")))))
     = Some (Participant.mk 2 (JStr "B") (JArr 1 []))
  /\ received 1
       (sent_of (onmessage sample_runtime
                   (fun s => if Nat.eqb s 2 then CLOSING else OPEN)
                   room_a 2 (Text (join_message "b1" "B"))))
     = [participantJoined (JStr "b1") (JStr "B") (JArr 1 [])].
Proof.
  destruct (join_without_reply sample_runtime
              (fun s => if Nat.eqb s 2 then CLOSING else OPEN)
              room_a 2 (join_message "b1" "B") "b1"
              (conj eq_refl (conj eq_refl (conj eq_refl eq_refl))) eq_refl)
    as [_ [H1 [_ [H2 H3]]]].
  split; [exact H1|]. split; [exact H2|].
  exact (H3 1 ltac:(discriminate)).
Defined.

(** C1: the reply to a join under the id [sid], where the runtime can
    serialise it.  The sender, if open, receives exactly one message:
    [existingParticipants] with the snapshot of the registry taken after its
    own record was written, that is, every record but the one under [sid].
    No entry of the list carries [sid]; every record that was in the registry
    under another id before the join is in the list; and the list holds
    nothing else. *)
Theorem existingParticipants_reply (rt : Runtime)
    (readyState : WebSocket -> ready_state)
    (room : ChatRoom) (ws : WebSocket) (message : jsval) (sid : string) :
  joins_as rt sid message ->
  readyState ws = OPEN ->
  let r := onmessage rt readyState room ws (Text message) in
  let list := snapshot (JStr sid) (participants (room_of r)) in
  JSON_stringify_throws rt (existingParticipants list) = false ->
  completion_of r = Returned
  /\ received ws (sent_of r) = [existingParticipants list]
  /\ Map.get (JStr sid) (participants (room_of r)) = Some (record_of ws message)
  /\ (forall info, In info list -> Info.sessionId info <> JStr sid)
  /\ (forall id data, In (id, data) (Map.entries (participants room)) ->
        id <> JStr sid -> In (public (id, data)) list)
  /\ (forall info, In info list ->
        exists data, In (Info.sessionId info, data) (Map.entries (participants room))
                     /\ info = public (Info.sessionId info, data)).
Proof.
  intros Hj Hopen r list Hfits.
  pose proof Hj as [Hty [Hsid _]].
  assert (Hroom : participants (room_of r)
                  = Map.set (JStr sid) (record_of ws message) (participants room)).
  { unfold r. rewrite (onmessage_join_room rt readyState room ws message Hty), Hsid.
    reflexivity. }
  assert (Hlist : forall info, In info list <->
            exists e, In e (participants (room_of r))
                      /\ fst e <> JStr sid /\ info = public e).
  { intros info. unfold list, snapshot. rewrite in_map_iff. split.
    - intros [e [He Hin]]. apply filter_In in Hin. destruct Hin as [Hin Hne].
      exists e. split; [assumption|]. split; [|auto].
      intros Heq. rewrite Heq in Hne. simpl in Hne.
      rewrite String.eqb_refl in Hne. discriminate.
    - intros [e [Hin [Hne He]]]. exists e. split; [auto|].
      apply filter_In. split; [assumption|].
      destruct (strict_equals (fst e) (JStr sid)) eqn:E; [|reflexivity].
      apply strict_equals_string_iff in E. contradiction. }
  split.
  { unfold r. rewrite (onmessage_join rt readyState room ws message sid Hj).
    cbv zeta. rewrite Hopen. cbn [is_OPEN].
    unfold list in Hfits. rewrite Hroom in Hfits. cbn [participants].
    rewrite Hfits. reflexivity. }
  split.
  { unfold r. rewrite (join_received_self rt readyState room ws message sid Hj).
    fold r. fold list. rewrite Hopen, Hfits. reflexivity. }
  split; [rewrite Hroom; apply get_set; reflexivity|].
  split.
  { intros info Hin. apply Hlist in Hin. destruct Hin as [e [_ [Hne ->]]].
    exact Hne. }
  split.
  { intros id data Hin Hne. apply Hlist. exists (id, data).
    split; [|split; [exact Hne | reflexivity]].
    rewrite Hroom. apply in_set_other; [exact Hin|].
    intros Hk. apply Hne. destruct id; try discriminate Hk.
    simpl in Hk. congruence. }
  intros info Hin. apply Hlist in Hin. destruct Hin as [[id data] [Hin [Hne ->]]].
  exists data. cbn [fst] in *. split; [|reflexivity].
  rewrite Hroom in Hin. apply in_set_inv in Hin.
  destruct Hin as [[_ Hk]|Hin]; [|exact Hin].
  exfalso. apply Hne. destruct id; try discriminate Hk. simpl in Hk. congruence.
Qed.

Lemma existingParticipants_reply_witness :
  received 2
    (sent_of (onmessage sample_runtime all_open room_a 2 (Text (join_message "b1" "B"))))
  = [existingParticipants [Info.mk (JStr "a1") (JStr "A") (JArr 1 [])]].
Proof.
  destruct (existingParticipants_reply sample_runtime all_open room_a 2
              (join_message "b1" "B") "b1"
              (conj eq_refl (conj eq_refl (conj eq_refl eq_refl))) eq_refl eq_refl)
    as [_ [H _]].
  exact H.
Defined.

Lemma in_set_string (sid : string) (v : Participant.t) (m : Map.t) :
  In (JStr sid, v) (Map.set (JStr sid) v m).
Proof.
  induction m as [|[k0 v0] rest IH]; cbn [Map.set].
  - left. reflexivity.
  - destruct (same_value_zero k0 (JStr sid)) eqn:E.
    + rewrite <- strict_equals_string in E.
      apply strict_equals_string_iff in E. subst k0. left. reflexivity.
    + right. exact IH.
Qed.

(** A join is in the snapshot taken for the next joiner under another id. *)
Lemma earlier_join_is_listed (rt : Runtime) (rs1 rs2 : WebSocket -> ready_state)
    (room : ChatRoom) (ws1 ws2 : WebSocket) (m1 m2 : jsval) (x y : string) :
  strict_equals (member m1 "type") (JStr "joinRoom") = true ->
  member m1 "sessionId" = JStr x ->
  strict_equals (member m2 "type") (JStr "joinRoom") = true ->
  member m2 "sessionId" = JStr y ->
  x <> y ->
  In (Info.mk (JStr x) (member m1 "userName") (member m1 "trackInfo"))
    (snapshot (JStr y)
       (participants
          (room_of (onmessage rt rs2 (room_of (onmessage rt rs1 room ws1 (Text m1)))
                      ws2 (Text m2))))).
Proof.
  intros Hty1 Hsid1 Hty2 Hsid2 Hxy.
  rewrite (onmessage_join_room rt rs2 _ ws2 m2 Hty2), Hsid2. cbn [participants].
  rewrite (onmessage_join_room rt rs1 room ws1 m1 Hty1), Hsid1. cbn [participants].
  unfold snapshot. apply in_map_iff.
  exists (JStr x, record_of ws1 m1). split; [reflexivity|].
  apply filter_In. split.
  - apply in_set_other; [apply in_set_string|].
    simpl. intros H. injection H as H. contradiction.
  - cbn [fst strict_equals]. apply negb_true_iff. apply String.eqb_neq. exact Hxy.
Qed.

(** ** Re-announcing an id *)

Lemma records_under_absent (k : jsval) (m : Map.t) :
  Map.has k m = false -> records_under k m = 0.
Proof.
  unfold records_under, Map.has.
  induction m as [|[k0 v0] rest IH]; simpl; [reflexivity|].
  intros H. apply orb_false_iff in H. destruct H as [H1 H2].
  rewrite H1. auto.
Qed.

Lemma records_under_present (k : jsval) (m : Map.t) :
  Map.wf m = true -> Map.has k m = true -> records_under k m = 1.
Proof.
  induction m as [|[k0 v0] rest IH]; simpl; [discriminate|].
  rewrite andb_true_iff, negb_true_iff. intros [Hh Hw] Hk.
  unfold Map.has in Hk. simpl in Hk. unfold records_under. simpl.
  destruct (same_value_zero k0 k) eqn:E.
  - simpl. f_equal. apply records_under_absent.
    apply has_false_iff. apply same_value_zero_iff in E. rewrite <- E.
    apply has_false_iff. assumption.
  - simpl in Hk. apply IH; assumption.
Qed.

(** C5: two joins under the same id, one after the other.  The registry
    ends with exactly one record under that id, the second join adds no
    entry, the record is the second join's (last write wins), and each of the
    two joins notifies every other open socket. *)
Theorem duplicate_join_overwrites (rt : Runtime) (rs1 rs2 : WebSocket -> ready_state)
    (room : ChatRoom) (ws1 ws2 : WebSocket) (m1 m2 : jsval) (sid : string) :
  Map.wf (participants room) = true ->
  joins_as rt sid m1 ->
  joins_as rt sid m2 ->
  let r1 := onmessage rt rs1 room ws1 (Text m1) in
  let r2 := onmessage rt rs2 (room_of r1) ws2 (Text m2) in
  records_under (JStr sid) (participants (room_of r2)) = 1
  /\ Map.size (participants (room_of r2)) = Map.size (participants (room_of r1))
  /\ Map.get (JStr sid) (participants (room_of r2)) = Some (record_of ws2 m2)
  /\ (forall s, s <> ws1 ->
        received s (sent_of r1)
        = if is_OPEN (rs1 s)
          then repeat (joined_note m1) (count_occ Nat.eq_dec (sessions room) s)
          else [])
  /\ (forall s, s <> ws2 ->
        received s (sent_of r2)
        = if is_OPEN (rs2 s)
          then repeat (joined_note m2) (count_occ Nat.eq_dec (sessions room) s)
          else []).
Proof.
  intros Hwf Hj1 Hj2 r1 r2.
  pose proof Hj1 as [Hty1 [Hsid1 _]]. pose proof Hj2 as [Hty2 [Hsid2 _]].
  assert (H1 : room_of r1
               = {| sessions := sessions room;
                    participants :=
                      Map.set (JStr sid) (record_of ws1 m1) (participants room) |}).
  { unfold r1. rewrite (onmessage_join_room rt rs1 room ws1 m1 Hty1), Hsid1.
    reflexivity. }
  assert (H2 : participants (room_of r2)
               = Map.set (JStr sid) (record_of ws2 m2) (participants (room_of r1))).
  { unfold r2. rewrite (onmessage_join_room rt rs2 (room_of r1) ws2 m2 Hty2), Hsid2.
    reflexivity. }
  assert (Hhas : Map.has (JStr sid) (participants (room_of r1)) = true).
  { rewrite H1. apply has_set. }
  split.
  { rewrite H2. apply records_under_present; [|apply has_set].
    apply wf_set. rewrite H1. apply wf_set. exact Hwf. }
  split; [rewrite H2, size_set, Hhas; reflexivity|].
  split; [rewrite H2; apply get_set; reflexivity|].
  split.
  - intros s Hs. apply join_received_other with (sid := sid); assumption.
  - intros s Hs. unfold r2.
    rewrite (join_received_other rt rs2 (room_of r1) ws2 s m2 sid Hj2 Hs).
    rewrite H1. reflexivity.
Qed.

Lemma duplicate_join_overwrites_witness :
  records_under (JStr "a1")
    (participants
       (room_of (onmessage sample_runtime all_open
                   (room_of (onmessage sample_runtime all_open room_a 1 (Text (join_message "a1" "A"))))
                   1 (Text (join_message "a1" "A"))))) = 1
  /\ received 2
       (sent_of (onmessage sample_runtime all_open
                   (room_of (onmessage sample_runtime all_open room_a 1 (Text (join_message "a1" "A"))))
                   1 (Text (join_message "a1" "A"))))
     = [participantJoined (JStr "a1") (JStr "A") (JArr 1 [])].
Proof.
  destruct (duplicate_join_overwrites sample_runtime all_open all_open room_a 1 1
              (join_message "a1" "A") (join_message "a1" "A") "a1"
              eq_refl
              (conj eq_refl (conj eq_refl (conj eq_refl eq_refl)))
              (conj eq_refl (conj eq_refl (conj eq_refl eq_refl))))
    as [H1 [_ [_ [_ H2]]]].
  split; [exact H1 | exact (H2 2 ltac:(discriminate))].
Defined.

(** ** The close listener *)

Lemma in_without (ws s : WebSocket) (l : list WebSocket) :
  In s (without ws l) <-> In s l /\ s <> ws.
Proof.
  unfold without. rewrite filter_In, negb_true_iff. unfold ws_eqb.
  rewrite Nat.eqb_neq. reflexivity.
Qed.

Lemma find_by_ws_none (ws : WebSocket) (m : Map.t) :
  find_by_ws ws m = None <-> ~ In ws (owners m).
Proof.
  induction m as [|[k v] rest IH]; simpl.
  - tauto.
  - unfold ws_eqb. destruct (Nat.eqb (Participant.ws v) ws) eqn:E.
    + apply Nat.eqb_eq in E. split; [discriminate | tauto].
    + apply Nat.eqb_neq in E. rewrite IH. tauto.
Qed.

Lemma find_by_ws_in (ws : WebSocket) (m : Map.t) (id : jsval) :
  find_by_ws ws m = Some id ->
  exists data, In (id, data) m /\ Participant.ws data = ws.
Proof.
  induction m as [|[k v] rest IH]; simpl; [discriminate|].
  unfold ws_eqb. destruct (Nat.eqb (Participant.ws v) ws) eqn:E.
  - intros H. injection H as <-. apply Nat.eqb_eq in E. exists v. auto.
  - intros H. destruct (IH H) as [d [H1 H2]]. exists d. auto.
Qed.

(** A second join under the same id takes the record over. *)
Lemma find_after_rebind (w : WebSocket) (k k' : jsval) (v1 v2 : Participant.t)
    (m : Map.t) :
  find_by_ws w m = None ->
  Participant.ws v2 <> w ->
  key_of k = key_of k' ->
  find_by_ws w (Map.set k v2 (Map.set k' v1 m)) = None.
Proof.
  intros Hm Hv Hk.
  assert (Hv' : ws_eqb (Participant.ws v2) w = false)
    by (apply Nat.eqb_neq; exact Hv).
  induction m as [|[k0 v0] rest IH].
  - cbn [Map.set].
    replace (same_value_zero (Map.canonical k') k) with true.
    + cbn [find_by_ws]. rewrite Hv'. reflexivity.
    + symmetry. apply same_value_zero_iff. rewrite key_of_canonical. congruence.
  - cbn [find_by_ws] in Hm.
    destruct (ws_eqb (Participant.ws v0) w) eqn:E0; [discriminate|].
    cbn [Map.set]. destruct (same_value_zero k0 k') eqn:E.
    + cbn [Map.set].
      replace (same_value_zero k0 k) with true.
      * cbn [find_by_ws]. rewrite Hv'. exact Hm.
      * symmetry. apply same_value_zero_iff.
        apply same_value_zero_iff in E. congruence.
    + cbn [Map.set].
      replace (same_value_zero k0 k) with false.
      * cbn [find_by_ws]. rewrite E0. apply IH. exact Hm.
      * symmetry. apply same_value_zero_false_iff.
        apply same_value_zero_false_iff in E. congruence.
Qed.

Section Close.
Variable readyState : WebSocket -> ready_state.

(** No record bound to the socket: the close only drops the session. *)
Lemma onclose_unbound (room : ChatRoom) (ws : WebSocket) :
  find_by_ws ws (Map.entries (participants room)) = None ->
  onclose readyState room ws
  = (Returned,
     {| sessions := without ws (sessions room);
        participants := participants room |},
     []).
Proof. intros H. unfold onclose. rewrite H. reflexivity. Qed.

(** The first record bound to the socket has a non-empty string id: it is
    deleted and its id announced. *)
Lemma onclose_bound (room : ChatRoom) (ws : WebSocket) (sid : string) :
  find_by_ws ws (Map.entries (participants room)) = Some (JStr sid) ->
  sid <> "" ->
  onclose readyState room ws
  = (Returned,
     {| sessions := without ws (sessions room);
        participants := Map.delete (JStr sid) (participants room) |},
     notify_left readyState (JStr sid) (without ws (sessions room))).
Proof.
  intros H Hne. unfold onclose. rewrite H. cbn [truthy substring_throws].
  apply String.eqb_neq in Hne. rewrite Hne. reflexivity.
Qed.

End Close.

(** C9: a record re-bound by another session outlives its first owner.  S1,
    which holds no record, joins under an id; S2 joins under the same id and
    the record is now S2's; when S1 then closes, S1 leaves [sessions], nothing
    is sent and the registry, the record included, is as the second join left
    it. *)
Theorem rebound_record_survives_close (rt : Runtime) (rs1 rs2 rs3 : WebSocket -> ready_state)
    (room : ChatRoom) (S1 S2 : WebSocket) (m1 m2 : jsval) :
  S1 <> S2 ->
  find_by_ws S1 (Map.entries (participants room)) = None ->
  strict_equals (member m1 "type") (JStr "joinRoom") = true ->
  strict_equals (member m2 "type") (JStr "joinRoom") = true ->
  same_value_zero (member m1 "sessionId") (member m2 "sessionId") = true ->
  let X := member m1 "sessionId" in
  let r1 := onmessage rt rs1 room S1 (Text m1) in
  let r2 := onmessage rt rs2 (room_of r1) S2 (Text m2) in
  let r3 := onclose rs3 (room_of r2) S1 in
  Map.get X (participants (room_of r1)) = Some (record_of S1 m1)
  /\ Map.get X (participants (room_of r2)) = Some (record_of S2 m2)
  /\ completion_of r3 = Returned
  /\ sessions (room_of r3) = without S1 (sessions room)
  /\ ~ In S1 (sessions (room_of r3))
  /\ sent_of r3 = []
  /\ participants (room_of r3) = participants (room_of r2)
  /\ Map.get X (participants (room_of r3)) = Some (record_of S2 m2).
Proof.
  intros Hne Hfree Hty1 Hty2 Hsame X r1 r2 r3.
  apply same_value_zero_iff in Hsame.
  assert (H1 : room_of r1
               = {| sessions := sessions room;
                    participants := Map.set X (record_of S1 m1) (participants room) |})
    by (unfold r1; apply onmessage_join_room; exact Hty1).
  assert (H2 : room_of r2
               = {| sessions := sessions room;
                    participants :=
                      Map.set (member m2 "sessionId") (record_of S2 m2)
                        (Map.set X (record_of S1 m1) (participants room)) |}).
  { unfold r2. rewrite (onmessage_join_room rt rs2 (room_of r1) S2 m2 Hty2), H1.
    reflexivity. }
  assert (Hget2 : Map.get X (participants (room_of r2)) = Some (record_of S2 m2)).
  { rewrite H2. apply get_set. exact Hsame. }
  assert (Hfind : find_by_ws S1 (Map.entries (participants (room_of r2))) = None).
  { rewrite H2. apply find_after_rebind.
    - exact Hfree.
    - simpl. intros Heq. apply Hne. symmetry. exact Heq.
    - symmetry. exact Hsame. }
  assert (H3 : r3 = (Returned,
                     {| sessions := without S1 (sessions (room_of r2));
                        participants := participants (room_of r2) |}, []))
    by (unfold r3; apply onclose_unbound; exact Hfind).
  assert (Hc3 : completion_of r3 = Returned) by (rewrite H3; reflexivity).
  assert (Hroom3 : room_of r3
                   = {| sessions := without S1 (sessions (room_of r2));
                        participants := participants (room_of r2) |})
    by (rewrite H3; reflexivity).
  assert (Hsent3 : sent_of r3 = []) by (rewrite H3; reflexivity).
  split; [rewrite H1; apply get_set; reflexivity|].
  split; [exact Hget2|].
  split; [exact Hc3|].
  rewrite Hroom3. cbn [sessions participants].
  split; [rewrite H2; reflexivity|].
  split; [intros Hin; apply in_without in Hin; destruct Hin as [_ Hin]; congruence|].
  split; [exact Hsent3|].
  split; [reflexivity | exact Hget2].
Qed.

Lemma rebound_record_survives_close_witness :
  sent_of
    (onclose all_open
       (room_of
          (onmessage sample_runtime all_open
             (room_of (onmessage sample_runtime all_open
                         {| sessions := [1; 2]; participants := [] |}
                         1 (Text (join_message "x" "A"))))
             2 (Text (join_message "x" "B"))))
       1) = []
  /\ Map.get (JStr "x")
       (participants
          (room_of
             (onclose all_open
                (room_of
                   (onmessage sample_runtime all_open
                      (room_of (onmessage sample_runtime all_open
                                  {| sessions := [1; 2]; participants := [] |}
                                  1 (Text (join_message "x" "A"))))
                      2 (Text (join_message "x" "B"))))
                1)))
     = Some (Participant.mk 2 (JStr "B") (JArr 1 [])).
Proof.
  destruct (rebound_record_survives_close sample_runtime all_open all_open all_open
              {| sessions := [1; 2]; participants := [] |} 1 2
              (join_message "x" "A") (join_message "x" "B")
              ltac:(discriminate) eq_refl eq_refl eq_refl eq_refl)
    as [_ [_ [_ [_ [_ [H1 [_ H2]]]]]]].
  split; [exact H1 | exact H2].
Defined.

(** C3, as the code has it: a close cleans up after the record bound to the
    closing socket.  The socket leaves [sessions].  If a record is bound to it
    (the first one in registry order, its id a non-empty string), that record
    is deleted and every remaining open socket receives exactly one
    [participantLeft] with its id, the others nothing.  If no record is bound
    to it (it never joined, or its record went to another socket), the
    registry is unchanged and nothing is sent. *)
Theorem close_cleanup (readyState : WebSocket -> ready_state)
    (room : ChatRoom) (ws : WebSocket) :
  Map.wf (participants room) = true ->
  NoDup (sessions room) ->
  (forall id, find_by_ws ws (Map.entries (participants room)) = Some id ->
              exists sid, id = JStr sid /\ sid <> "") ->
  let r := onclose readyState room ws in
  completion_of r = Returned
  /\ sessions (room_of r) = without ws (sessions room)
  /\ ~ In ws (sessions (room_of r))
  /\ match find_by_ws ws (Map.entries (participants room)) with
     | Some id =>
         participants (room_of r) = Map.delete id (participants room)
         /\ Map.get id (participants (room_of r)) = None
         /\ (forall s, In s (sessions (room_of r)) -> readyState s = OPEN ->
               received s (sent_of r) = [participantLeft id])
         /\ (forall s, ~ In s (sessions (room_of r)) \/ is_OPEN (readyState s) = false ->
               received s (sent_of r) = [])
     | None =>
         participants (room_of r) = participants room /\ sent_of r = []
     end.
Proof.
  intros Hwf Hnd Hid r.
  assert (Hnotin : ~ In ws (without ws (sessions room)))
    by (intros Hin; apply in_without in Hin; destruct Hin as [_ Hin]; congruence).
  destruct (find_by_ws ws (Map.entries (participants room))) as [id|] eqn:Hfind.
  - destruct (Hid id eq_refl) as [sid [-> Hne]].
    assert (Hr : r = (Returned,
                      {| sessions := without ws (sessions room);
                         participants := Map.delete (JStr sid) (participants room) |},
                      notify_left readyState (JStr sid) (without ws (sessions room))))
      by (unfold r; apply onclose_bound; assumption).
    rewrite Hr. unfold completion_of, room_of, sent_of.
    cbn [fst snd sessions participants].
    split; [reflexivity|]. split; [reflexivity|]. split; [exact Hnotin|].
    split; [reflexivity|]. split; [apply get_delete; exact Hwf|].
    assert (Hnd' : NoDup (without ws (sessions room)))
      by (apply NoDup_filter; exact Hnd).
    split.
    + intros s Hin Hopen. rewrite received_notify_left, Hopen. cbn [is_OPEN].
      assert (Hc : count_occ Nat.eq_dec (without ws (sessions room)) s = 1)
        by (apply NoDup_count_occ' with (decA := Nat.eq_dec); assumption).
      rewrite Hc. reflexivity.
    + intros s [Hout|Hclosed]; rewrite received_notify_left.
      * apply (count_occ_not_In Nat.eq_dec) in Hout. rewrite Hout.
        destruct (is_OPEN (readyState s)); reflexivity.
      * rewrite Hclosed. reflexivity.
  - assert (Hr : r = (Returned,
                      {| sessions := without ws (sessions room);
                         participants := participants room |}, []))
      by (unfold r; apply onclose_unbound; assumption).
    rewrite Hr. unfold completion_of, room_of, sent_of.
    cbn [fst snd sessions participants].
    repeat split. exact Hnotin.
Qed.

Lemma close_cleanup_witness :
  sessions (room_of (onclose all_open room_a 1)) = [2; 3]
  /\ participants (room_of (onclose all_open room_a 1)) = []
  /\ received 2 (sent_of (onclose all_open room_a 1)) = [participantLeft (JStr "a1")]
  /\ received 3 (sent_of (onclose all_open room_a 1)) = [participantLeft (JStr "a1")].
Proof.
  assert (Hnd : NoDup (sessions room_a)).
  { repeat constructor; simpl; intros H;
      repeat (destruct H as [H|H]; [discriminate H|]); exact H. }
  assert (Hid : forall id,
             find_by_ws 1 (Map.entries (participants room_a)) = Some id ->
             exists sid, id = JStr sid /\ sid <> "").
  { intros id H. injection H as <-. exists "a1". split; [reflexivity | discriminate]. }
  destruct (close_cleanup all_open room_a 1 eq_refl Hnd Hid)
    as [_ [H1 [_ [H2 [_ [H3 _]]]]]].
  split; [exact H1|]. split; [exact H2|].
  split.
  - apply H3; [left; reflexivity | reflexivity].
  - apply H3; [right; left; reflexivity | reflexivity].
Defined.

(** C3 as stated fails once a record has been re-bound: socket 1 joins as x
    (its join runs to the end), socket 2 joins as x, socket 1 closes.  Socket
    2 remains and is open, yet receives no [participantLeft], and the record
    under x stays. *)
Lemma close_after_join_sends_nothing :
  let room0 := {| sessions := [1; 2]; participants := [] |} in
  let r1 := onmessage sample_runtime all_open room0 1 (Text (join_message "x" "A")) in
  let r2 := onmessage sample_runtime all_open (room_of r1) 2 (Text (join_message "x" "B")) in
  let r3 := onclose all_open (room_of r2) 1 in
  completion_of r1 = Returned
  /\ Map.get (JStr "x") (participants (room_of r1))
     = Some (Participant.mk 1 (JStr "A") (JArr 1 []))
  /\ In 2 (sessions (room_of r3))
  /\ all_open 2 = OPEN
  /\ received 2 (sent_of r3) <> [participantLeft (JStr "x")]
  /\ received 2 (sent_of r3) = []
  /\ Map.get (JStr "x") (participants (room_of r3)) <> None.
Proof.
  cbv zeta. repeat split; try (left; reflexivity); discriminate.
Qed.

(** The empty string is a falsy id: its record is deleted at close, and the
    truthiness test then skips the broadcast. *)
Example close_with_empty_id :
  let room0 := {| sessions := [1; 2]; participants := [] |} in
  let r1 := onmessage sample_runtime all_open room0 1 (Text (join_message "" "A")) in
  let r2 := onclose all_open (room_of r1) 1 in
  participants (room_of r2) = [] /\ sent_of r2 = [].
Proof. split; reflexivity. Qed.

(** ** The error listener *)

(** C4, as the code has it: an error event cleans nothing up.  The error
    listener only logs: sessions and registry are unchanged, nothing is sent,
    later events are handled as if the error had not occurred, and a close
    event that follows runs the cleanup of the close listener on the untouched
    room. *)
Theorem error_listener_only_logs (rt : Runtime) (readyState readyState' : WebSocket -> ready_state)
    (room : ChatRoom) (ws : WebSocket)
    (rest : list ((WebSocket -> ready_state) * event)) :
  dispatch rt readyState room (ErrorEvent ws) = (Returned, room, [])
  /\ run rt room ((readyState, ErrorEvent ws) :: rest) = run rt room rest
  /\ dispatch rt readyState' (room_of (dispatch rt readyState room (ErrorEvent ws)))
       (CloseEvent ws)
     = onclose readyState' room ws.
Proof.
  split; [reflexivity|]. split; [|reflexivity].
  cbn [run dispatch onerror room_of sent_of fst snd].
  destruct (run rt room rest) as [room' out]. reflexivity.
Qed.

(** C4 as stated fails: on the room where socket 1 has joined, an error on
    socket 1 does not do what its close does; the socket stays in [sessions],
    its record stays and no [participantLeft] goes out. *)
Lemma error_is_not_close :
  dispatch sample_runtime all_open room_a (ErrorEvent 1) <> dispatch sample_runtime all_open room_a (CloseEvent 1)
  /\ In 1 (sessions (room_of (dispatch sample_runtime all_open room_a (ErrorEvent 1))))
  /\ Map.get (JStr "a1") (participants (room_of (dispatch sample_runtime all_open room_a (ErrorEvent 1))))
     = Some (Participant.mk 1 (JStr "A") (JArr 1 []))
  /\ sent_of (dispatch sample_runtime all_open room_a (ErrorEvent 1)) = []
  /\ sent_of (dispatch sample_runtime all_open room_a (CloseEvent 1))
     = [(2, participantLeft (JStr "a1")); (3, participantLeft (JStr "a1"))].
Proof.
  split; [discriminate|]. split; [left; reflexivity|]. repeat split.
Qed.

(** ** Sessions and participants *)

Lemma owners_set_in (k : jsval) (v : Participant.t) (m : Map.t) (x : WebSocket) :
  In x (owners (Map.set k v m)) -> x = Participant.ws v \/ In x (owners m).
Proof.
  induction m as [|[k0 v0] rest IH]; simpl.
  - intros [H|[]]. left. symmetry. exact H.
  - destruct (same_value_zero k0 k); simpl.
    + intros [H|H]; [left; symmetry; exact H | right; right; exact H].
    + intros [H|H]; [right; left; exact H|].
      destruct (IH H) as [H'|H']; [left | right; right]; exact H'.
Qed.

Lemma owners_set_NoDup (k : jsval) (v : Participant.t) (m : Map.t) :
  Map.wf m = true ->
  NoDup (owners m) ->
  (forall id d, In (id, d) m -> Participant.ws d = Participant.ws v ->
                key_of id = key_of k) ->
  NoDup (owners (Map.set k v m)).
Proof.
  induction m as [|[k0 v0] rest IH]; intros Hwf Hnd Hown.
  - simpl. constructor; [intros [] | constructor].
  - simpl in Hwf. apply andb_true_iff in Hwf. destruct Hwf as [Hh Hwf].
    apply negb_true_iff in Hh.
    change (owners ((k0, v0) :: rest)) with (Participant.ws v0 :: owners rest) in Hnd.
    inversion Hnd as [|x l Hx Hl]; subst.
    cbn [Map.set]. destruct (same_value_zero k0 k) eqn:E.
    + change (NoDup (Participant.ws v :: owners rest)).
      constructor; [|exact Hl].
      intros Hin. unfold owners in Hin. apply in_map_iff in Hin.
      destruct Hin as [[id d] [Hd Hin]]. cbn [snd] in Hd.
      assert (Hk : key_of id = key_of k)
        by (apply (Hown id d); [right; exact Hin | exact Hd]).
      apply has_false_iff in Hh. apply Hh.
      apply same_value_zero_iff in E. rewrite E, <- Hk.
      unfold keys. apply in_map_iff. exists (id, d). auto.
    + change (NoDup (Participant.ws v0 :: owners (Map.set k v rest))).
      constructor.
      * intros Hin. apply owners_set_in in Hin. destruct Hin as [Hin|Hin].
        -- apply same_value_zero_false_iff in E. apply E.
           apply (Hown k0 v0); [left; reflexivity | exact Hin].
        -- contradiction.
      * apply IH; [exact Hwf | exact Hl |].
        intros id d Hin Hd. apply (Hown id d); [right; exact Hin | exact Hd].
Qed.

Lemma owners_delete_found (w : WebSocket) (id : jsval) (m : Map.t) :
  Map.wf m = true ->
  NoDup (owners m) ->
  find_by_ws w m = Some id ->
  NoDup (owners (Map.delete id m))
  /\ forall x, In x (owners (Map.delete id m)) -> In x (owners m) /\ x <> w.
Proof.
  induction m as [|[k0 v0] rest IH]; intros Hwf Hnd Hfind; [discriminate|].
  simpl in Hwf. apply andb_true_iff in Hwf. destruct Hwf as [Hh Hwf].
  apply negb_true_iff in Hh.
  change (owners ((k0, v0) :: rest)) with (Participant.ws v0 :: owners rest) in *.
  inversion Hnd as [|x l Hx Hl]; subst.
  cbn [find_by_ws] in Hfind. unfold ws_eqb in Hfind.
  destruct (Nat.eqb (Participant.ws v0) w) eqn:E.
  - injection Hfind as <-. apply Nat.eqb_eq in E.
    cbn [Map.delete]. rewrite same_value_zero_refl.
    split; [exact Hl|]. intros x Hin. split; [right; exact Hin|].
    intros ->. rewrite <- E in Hin. contradiction.
  - apply Nat.eqb_neq in E.
    assert (Hk : same_value_zero k0 id = false).
    { apply same_value_zero_false_iff. intros Hk.
      apply find_by_ws_in in Hfind. destruct Hfind as [d [Hin _]].
      apply has_false_iff in Hh. apply Hh. rewrite Hk.
      unfold keys. apply in_map_iff. exists (id, d). auto. }
    cbn [Map.delete]. rewrite Hk.
    destruct (IH Hwf Hl Hfind) as [IH1 IH2].
    change (owners ((k0, v0) :: Map.delete id rest))
      with (Participant.ws v0 :: owners (Map.delete id rest)).
    split.
    + constructor; [|exact IH1]. intros Hin. apply IH2 in Hin. tauto.
    + intros x [Hx'|Hx'].
      * subst x. split; [left; reflexivity | exact E].
      * apply IH2 in Hx'. destruct Hx' as [H1 H2]. split; [right; exact H1 | exact H2].
Qed.

Lemma join_in_order_spec (room : ChatRoom) (ws : WebSocket) (message : jsval) :
  join_in_order room ws message = true ->
  In ws (sessions room)
  /\ forall id d, In (id, d) (participants room) -> Participant.ws d = ws ->
                  key_of id = key_of (member message "sessionId").
Proof.
  unfold join_in_order. rewrite andb_true_iff, existsb_exists, forallb_forall.
  intros [[x [Hx Heq]] Hall]. apply Nat.eqb_eq in Heq. subst x.
  split; [exact Hx|].
  intros id d Hin Hd. specialize (Hall (id, d) Hin). cbn [fst snd] in Hall.
  apply orb_true_iff in Hall. destruct Hall as [Hall|Hall].
  - apply negb_true_iff in Hall. apply Nat.eqb_neq in Hall. contradiction.
  - apply same_value_zero_iff. exact Hall.
Qed.

Lemma onclose_room (readyState : WebSocket -> ready_state)
    (room : ChatRoom) (ws : WebSocket) :
  room_of (onclose readyState room ws)
  = {| sessions := without ws (sessions room);
       participants :=
         match find_by_ws ws (Map.entries (participants room)) with
         | Some id => Map.delete id (participants room)
         | None => participants room
         end |}.
Proof.
  unfold onclose.
  destruct (find_by_ws ws (Map.entries (participants room))) as [id|].
  - destruct (truthy id); [destruct (substring_throws id)|]; reflexivity.
  - reflexivity.
Qed.

Lemma bound_new : bound new_ChatRoom.
Proof.
  split; [reflexivity|]. split; [constructor | intros x []].
Qed.

Lemma bound_dispatch (rt : Runtime) (readyState : WebSocket -> ready_state)
    (room : ChatRoom) (ev : event) :
  bound room ->
  event_in_order room ev = true ->
  bound (room_of (dispatch rt readyState room ev)).
Proof.
  intros [Hwf [Hnd Hincl]] Hev.
  destruct ev as [ws|ws data|ws|ws]; cbn [dispatch].
  - unfold handleWebSocket, room_of, bound. cbn [fst snd sessions participants].
    split; [exact Hwf|]. split; [exact Hnd|].
    intros x Hx. apply in_or_app. left. apply Hincl. exact Hx.
  - destruct data as [|message].
    + unfold bound. cbn. auto.
    + cbn [event_in_order] in Hev.
      destruct (strict_equals (member message "type") (JStr "joinRoom")) eqn:Hty.
      * apply join_in_order_spec in Hev. destruct Hev as [Hin Hown].
        rewrite (onmessage_join_room rt readyState room ws message Hty).
        unfold bound. cbn [sessions participants].
        split; [apply wf_set; exact Hwf|].
        split.
        -- apply owners_set_NoDup; [exact Hwf | exact Hnd |].
           intros id d Hd Hws. apply (Hown id d Hd). exact Hws.
        -- intros x Hx. apply owners_set_in in Hx. destruct Hx as [->|Hx].
           ++ exact Hin.
           ++ apply Hincl. exact Hx.
      * assert (Hr : room_of (onmessage rt readyState room ws (Text message)) = room).
        { unfold onmessage. cbn [JSON_parse]. rewrite Hty.
          destruct (member_throws message); reflexivity. }
        rewrite Hr. unfold bound. auto.
  - rewrite onclose_room. unfold bound. cbn [sessions participants].
    destruct (find_by_ws ws (Map.entries (participants room))) as [id|] eqn:Hfind.
    + destruct (owners_delete_found ws id (participants room) Hwf Hnd Hfind)
        as [H1 H2].
      split; [apply wf_delete; exact Hwf|]. split; [exact H1|].
      intros x Hx. apply H2 in Hx. destruct Hx as [Hx Hne].
      apply in_without. split; [apply Hincl; exact Hx | exact Hne].
    + split; [exact Hwf|]. split; [exact Hnd|].
      intros x Hx. apply in_without. split; [apply Hincl; exact Hx|].
      intros ->. apply find_by_ws_none in Hfind. contradiction.
  - unfold bound. cbn. auto.
Qed.

Lemma bound_run (rt : Runtime) (room : ChatRoom)
    (trace : list ((WebSocket -> ready_state) * event)) :
  bound room -> in_order rt room trace = true -> bound (fst (run rt room trace)).
Proof.
  revert room. induction trace as [|[readyState ev] rest IH]; intros room Hb Ho.
  - exact Hb.
  - cbn [in_order] in Ho. apply andb_true_iff in Ho. destruct Ho as [Hev Ho].
    cbn [run].
    specialize (IH (room_of (dispatch rt readyState room ev))
                  (bound_dispatch rt readyState room ev Hb Hev) Ho).
    destruct (run rt (room_of (dispatch rt readyState room ev)) rest) as [room' out].
    exact IH.
Qed.

Lemma in_order_app (rt : Runtime) (room : ChatRoom)
    (pre post : list ((WebSocket -> ready_state) * event)) :
  in_order rt room (pre ++ post) = true -> in_order rt room pre = true.
Proof.
  revert room. induction pre as [|[readyState ev] rest IH]; intros room H.
  - reflexivity.
  - cbn [app in_order] in *. apply andb_true_iff in H. destruct H as [H1 H2].
    rewrite H1. cbn [andb]. apply IH. exact H2.
Qed.

Lemma bound_size (room : ChatRoom) :
  bound room -> Map.size (participants room) <= List.length (sessions room).
Proof.
  intros [_ [Hnd Hincl]].
  replace (Map.size (participants room))
    with (List.length (owners (participants room)))
    by (unfold owners; apply length_map).
  apply NoDup_incl_length; assumption.
Qed.

(** The registry of a room that started empty never holds a key twice,
    whatever the events. *)
Lemma wf_dispatch (rt : Runtime) (readyState : WebSocket -> ready_state)
    (room : ChatRoom) (ev : event) :
  Map.wf (participants room) = true ->
  Map.wf (participants (room_of (dispatch rt readyState room ev))) = true.
Proof.
  intros Hwf. destruct ev as [ws|ws data|ws|ws]; cbn [dispatch].
  - exact Hwf.
  - destruct data as [|message]; [exact Hwf|].
    destruct (strict_equals (member message "type") (JStr "joinRoom")) eqn:Hty.
    + rewrite (onmessage_join_room rt readyState room ws message Hty).
      apply wf_set. exact Hwf.
    + unfold onmessage. cbn [JSON_parse]. rewrite Hty.
      destruct (member_throws message); exact Hwf.
  - rewrite onclose_room. cbn [participants].
    destruct (find_by_ws ws (Map.entries (participants room)));
      [apply wf_delete|]; exact Hwf.
  - exact Hwf.
Qed.

Lemma wf_run (rt : Runtime) (trace : list ((WebSocket -> ready_state) * event)) (room : ChatRoom) :
  Map.wf (participants room) = true ->
  Map.wf (participants (fst (run rt room trace))) = true.
Proof.
  revert room. induction trace as [|[readyState ev] rest IH]; intros room Hwf.
  - exact Hwf.
  - cbn [run].
    specialize (IH (room_of (dispatch rt readyState room ev))
                  (wf_dispatch rt readyState room ev Hwf)).
    destruct (run rt (room_of (dispatch rt readyState room ev)) rest) as [room' out].
    exact IH.
Qed.

(** C2, as the code has it: starting from a new room, after every event of
    a trace the sessions are at least as many as the participants, provided
    the joins come in order: each from a socket that is in [sessions], under
    the id of the record that socket holds if it holds one. *)
Theorem sessions_cover_participants (rt : Runtime)
    (pre post : list ((WebSocket -> ready_state) * event)) :
  in_order rt new_ChatRoom (pre ++ post) = true ->
  Map.size (participants (fst (run rt new_ChatRoom pre)))
  <= List.length (sessions (fst (run rt new_ChatRoom pre))).
Proof.
  intros H. apply bound_size. apply bound_run; [apply bound_new|].
  eapply in_order_app. exact H.
Qed.

Lemma sessions_cover_participants_witness :
  Map.size (participants (fst (run sample_runtime new_ChatRoom
     [(all_open, Accepted 1); (all_open, MessageEvent 1 (Text (join_message "a1" "A")));
      (all_open, Accepted 2); (all_open, MessageEvent 2 (Text (join_message "b1" "B")))])))
  <= List.length (sessions (fst (run sample_runtime new_ChatRoom
     [(all_open, Accepted 1); (all_open, MessageEvent 1 (Text (join_message "a1" "A")));
      (all_open, Accepted 2); (all_open, MessageEvent 2 (Text (join_message "b1" "B")))]))).
Proof.
  apply (sessions_cover_participants sample_runtime
           [(all_open, Accepted 1); (all_open, MessageEvent 1 (Text (join_message "a1" "A")));
            (all_open, Accepted 2); (all_open, MessageEvent 2 (Text (join_message "b1" "B")))]
           [(all_open, CloseEvent 1)]).
  reflexivity.
Defined.

(** C2 as stated fails when one socket joins under two ids: one session, two
    participants. *)
Lemma one_session_two_participants :
  let room := fst (run sample_runtime new_ChatRoom
     [(all_open, Accepted 1);
      (all_open, MessageEvent 1 (Text (join_message "a" "A")));
      (all_open, MessageEvent 1 (Text (join_message "b" "A")))]) in
  List.length (sessions room) = 1
  /\ Map.size (participants room) = 2
  /\ ~ (List.length (sessions room) >= Map.size (participants room)).
Proof.
  cbv zeta. split; [reflexivity|]. split; [reflexivity|].
  intros H. vm_compute in H. lia.
Qed.

(** ** The scenario of the design

    A joins as a1 and is told the room is empty; B joins as b1, A hears of
    it and B is told about A; A closes and B hears of it. *)
Example scenario_two_peers :
  run sample_runtime new_ChatRoom
    [(all_open, Accepted 1);
     (all_open, MessageEvent 1 (Text (join_message "a1" "A")));
     (all_open, Accepted 2);
     (all_open, MessageEvent 2 (Text (join_message "b1" "B")));
     (all_open, CloseEvent 1)]
  = ({| sessions := [2];
        participants := [(JStr "b1", Participant.mk 2 (JStr "B") (JArr 1 []))] |},
     [(1, existingParticipants []);
      (1, participantJoined (JStr "b1") (JStr "B") (JArr 1 []));
      (2, existingParticipants [Info.mk (JStr "a1") (JStr "A") (JArr 1 [])]);
      (2, participantLeft (JStr "a1"))]).
Proof. reflexivity. Qed.

(** A join whose id is not a string stores its record and then throws in
    the log line: nobody is notified, at the join or at the close. *)
Example join_with_numeric_id :
  run sample_runtime {| sessions := [1; 2]; participants := [] |}
    [(all_open,
      MessageEvent 1 (Text (JObj 0 [("type", JStr "joinRoom"); ("sessionId", JNum 5)])));
     (all_open, CloseEvent 1)]
  = ({| sessions := [2]; participants := [] |}, []).
Proof. reflexivity. Qed.

(** * More on the listeners *)

(** ** Who is sent what *)

Lemma is_OPEN_true (r : ready_state) : is_OPEN r = true -> r = OPEN.
Proof. destruct r; [discriminate | reflexivity | discriminate | discriminate]. Qed.

Lemma in_notify_joined (readyState : WebSocket -> ready_state)
    (ws s : WebSocket) (a b c : jsval) (m : outbound) (l : list WebSocket) :
  In (s, m) (notify_joined readyState ws a b c l) ->
  In s l /\ s <> ws /\ readyState s = OPEN /\ m = participantJoined a b c.
Proof.
  unfold notify_joined. rewrite in_flat_map. intros [x [Hx Hin]].
  destruct (negb (ws_eqb x ws) && is_OPEN (readyState x)) eqn:E; [|destruct Hin].
  destruct Hin as [Hin|[]]. injection Hin as <- <-.
  apply andb_true_iff in E. destruct E as [E1 E2].
  apply negb_true_iff in E1. apply Nat.eqb_neq in E1.
  split; [exact Hx|]. split; [exact E1|]. split; [apply is_OPEN_true; exact E2|].
  reflexivity.
Qed.

Lemma in_notify_left (readyState : WebSocket -> ready_state)
    (s : WebSocket) (id : jsval) (m : outbound) (l : list WebSocket) :
  In (s, m) (notify_left readyState id l) ->
  In s l /\ readyState s = OPEN /\ m = participantLeft id.
Proof.
  unfold notify_left. rewrite in_flat_map. intros [x [Hx Hin]].
  destruct (is_OPEN (readyState x)) eqn:E; [|destruct Hin].
  destruct Hin as [Hin|[]]. injection Hin as <- <-.
  split; [exact Hx|]. split; [apply is_OPEN_true; exact E | reflexivity].
Qed.

Lemma onmessage_sent_shape (rt : Runtime) (readyState : WebSocket -> ready_state)
    (room : ChatRoom) (ws : WebSocket) (data : frame) :
  exists joined reply,
    sent_of (onmessage rt readyState room ws data) = joined ++ reply
    /\ (joined = []
        \/ exists a b c, joined = notify_joined readyState ws a b c (sessions room))
    /\ (reply = []
        \/ (is_OPEN (readyState ws) = true
            /\ exists k,
                 reply
                 = [(ws, existingParticipants
                           (snapshot k
                              (participants
                                 (room_of (onmessage rt readyState room ws data)))))])).
Proof.
  assert (Hnone : forall c r, exists joined reply : list sent,
            sent_of (c, r, []) = joined ++ reply
            /\ (joined = []
                \/ exists a b c, joined = notify_joined readyState ws a b c (sessions room))
            /\ (reply = []
                \/ (is_OPEN (readyState ws) = true
                    /\ exists k,
                         reply
                         = [(ws, existingParticipants
                                   (snapshot k (participants (room_of (c, r, [])))))]))).
  { intros c r. exists [], []. split; [reflexivity|]. split; left; reflexivity. }
  unfold onmessage. destruct data as [|message]; cbn [JSON_parse]; [apply Hnone|].
  destruct (member_throws message); [apply Hnone|].
  destruct (strict_equals (member message "type") (JStr "joinRoom")); [|apply Hnone].
  destruct (to_string_error (print_depth rt) (member message "userName"));
    [apply Hnone|].
  destruct (substring_throws (member message "sessionId")); [apply Hnone|].
  cbn [sessions participants].
  destruct (forEach_joined_cases rt readyState ws (member message "sessionId")
              (member message "userName") (member message "trackInfo")
              (sessions room)) as [H|H]; rewrite H; [|apply Hnone].
  rewrite collect_existing_snapshot.
  destruct (is_OPEN (readyState ws)) eqn:Hopen.
  - match goal with |- context [if ?c then _ else _] => destruct c end.
    + eexists. exists []. split; [symmetry; apply app_nil_r|].
      split; [right; eexists; eexists; eexists; reflexivity | left; reflexivity].
    + eexists. eexists. split; [reflexivity|].
      split; [right; eexists; eexists; eexists; reflexivity|].
      right. split; [reflexivity|]. eexists. reflexivity.
  - eexists. exists []. split; [symmetry; apply app_nil_r|].
    split; [right; eexists; eexists; eexists; reflexivity | left; reflexivity].
Qed.

Lemma onmessage_sent (rt : Runtime) (readyState : WebSocket -> ready_state)
    (room : ChatRoom) (ws : WebSocket) (data : frame) (s : WebSocket) (m : outbound) :
  In (s, m) (sent_of (onmessage rt readyState room ws data)) ->
  readyState s = OPEN
  /\ ((s = ws /\ exists l, m = existingParticipants l)
      \/ (s <> ws /\ In s (sessions room) /\ exists a b c, m = participantJoined a b c)).
Proof.
  destruct (onmessage_sent_shape rt readyState room ws data)
    as [joined [reply [-> [Hj Hr]]]].
  intros Hin. apply in_app_or in Hin. destruct Hin as [Hin|Hin].
  - destruct Hj as [->|[a [b [c ->]]]]; [destruct Hin|].
    apply in_notify_joined in Hin. destruct Hin as [H1 [H2 [H3 H4]]].
    split; [exact H3|]. right. split; [exact H2|]. split; [exact H1|].
    eexists. eexists. eexists. exact H4.
  - destruct Hr as [->|[Hopen [k ->]]]; [destruct Hin|].
    destruct Hin as [Hin|[]]. injection Hin as <- <-.
    split; [apply is_OPEN_true; exact Hopen|]. left. split; [reflexivity|].
    eexists. reflexivity.
Qed.

Lemma onclose_sent (readyState : WebSocket -> ready_state)
    (room : ChatRoom) (ws s : WebSocket) (m : outbound) :
  In (s, m) (sent_of (onclose readyState room ws)) ->
  readyState s = OPEN
  /\ s <> ws /\ In s (sessions room) /\ exists id, m = participantLeft id.
Proof.
  unfold onclose.
  destruct (find_by_ws ws (Map.entries (participants room))) as [id|];
    [|intros []].
  destruct (truthy id); [|intros []].
  destruct (substring_throws id); [intros []|].
  unfold sent_of. cbn [snd sessions]. intros Hin.
  apply in_notify_left in Hin. destruct Hin as [H1 [H2 H3]].
  change (In s (without ws (sessions room))) in H1. apply in_without in H1.
  destruct H1 as [H1 H1'].
  split; [exact H2|]. split; [exact H1'|]. split; [exact H1|].
  exists id. exact H3.
Qed.

(** X1: whatever the event, every message goes to a socket that is OPEN at
    that moment. *)
Theorem sends_reach_open_sockets_only (rt : Runtime) (readyState : WebSocket -> ready_state)
    (room : ChatRoom) (ev : event) (s : WebSocket) (m : outbound) :
  In (s, m) (sent_of (dispatch rt readyState room ev)) ->
  readyState s = OPEN.
Proof.
  destruct ev as [ws|ws data|ws|ws]; cbn [dispatch].
  - intros [].
  - intros H. apply onmessage_sent in H. tauto.
  - intros H. apply onclose_sent in H. tauto.
  - intros [].
Qed.

Lemma sends_reach_open_sockets_only_witness :
  (fun s => if Nat.eqb s 3 then CLOSED else OPEN) 1 = OPEN.
Proof.
  apply (sends_reach_open_sockets_only sample_runtime
           (fun s => if Nat.eqb s 3 then CLOSED else OPEN) room_a
           (MessageEvent 2 (Text (join_message "b1" "B"))) 1
           (participantJoined (JStr "b1") (JStr "B") (JArr 1 []))).
  left. reflexivity.
Defined.

(** X2: which message an event can send to whom.  A frame sends
    [existingParticipants] to its sender only and [participantJoined] only to
    other sockets of [sessions]; a close sends [participantLeft] only, to
    sockets of [sessions] other than the closing one; accepting a socket and
    an error send nothing. *)
Theorem sends_by_event (rt : Runtime) (readyState : WebSocket -> ready_state)
    (room : ChatRoom) (ev : event) (s : WebSocket) (m : outbound) :
  In (s, m) (sent_of (dispatch rt readyState room ev)) ->
  match ev with
  | MessageEvent ws _ =>
      (s = ws /\ exists l, m = existingParticipants l)
      \/ (s <> ws /\ In s (sessions room)
          /\ exists a b c, m = participantJoined a b c)
  | CloseEvent ws =>
      s <> ws /\ In s (sessions room) /\ exists id, m = participantLeft id
  | Accepted _ | ErrorEvent _ => False
  end.
Proof.
  destruct ev as [ws|ws data|ws|ws]; cbn [dispatch].
  - intros [].
  - intros H. apply onmessage_sent in H. tauto.
  - intros H. apply onclose_sent in H. tauto.
  - intros [].
Qed.

Lemma sends_by_event_witness :
  2 <> 1 /\ In 2 (sessions room_a)
  /\ exists id, participantLeft (JStr "a1") = participantLeft id.
Proof.
  apply (sends_by_event sample_runtime all_open room_a (CloseEvent 1) 2 (participantLeft (JStr "a1"))).
  left. reflexivity.
Defined.

(** ** What a frame can do to the room *)

Lemma has_set_mono (k k' : jsval) (v : Participant.t) (m : Map.t) :
  Map.has k' m = true -> Map.has k' (Map.set k v m) = true.
Proof.
  rewrite !has_iff, keys_set. intros H.
  destruct (Map.has k m); [exact H | apply in_or_app; left; exact H].
Qed.

(** X3: no frame, whatever it holds and however its listener ends, changes
    [sessions] or drops an id from the registry; it adds at most one
    record. *)
Theorem frame_keeps_sessions_and_ids (rt : Runtime) (readyState : WebSocket -> ready_state)
    (room : ChatRoom) (ws : WebSocket) (data : frame) :
  let r := onmessage rt readyState room ws data in
  sessions (room_of r) = sessions room
  /\ (forall id, Map.has id (participants room) = true ->
                 Map.has id (participants (room_of r)) = true)
  /\ Map.size (participants room) <= Map.size (participants (room_of r))
  /\ Map.size (participants (room_of r)) <= S (Map.size (participants room)).
Proof.
  intros r.
  assert (Hcases : room_of r = room
                   \/ exists k v,
                        room_of r
                        = {| sessions := sessions room;
                             participants := Map.set k v (participants room) |}).
  { unfold r. destruct data as [|message]; [left; reflexivity|].
    destruct (strict_equals (member message "type") (JStr "joinRoom")) eqn:Hty.
    - right. eexists. eexists. apply onmessage_join_room. exact Hty.
    - left. unfold onmessage. cbn [JSON_parse]. rewrite Hty.
      destruct (member_throws message); reflexivity. }
  destruct Hcases as [->|[k [v ->]]]; cbn [sessions participants].
  - repeat split; auto.
  - split; [reflexivity|]. split; [intros id; apply has_set_mono|].
    rewrite size_set. destruct (Map.has k (participants room)); split; lia.
Qed.

(** X5: a join whose user name the runtime cannot print, or whose id is
    not a string, stops at the log line: the listener throws the error of the
    log line and nothing is sent, yet the record has been written and
    [sessions] is as before. *)
Theorem join_that_throws (rt : Runtime) (readyState : WebSocket -> ready_state)
    (room : ChatRoom) (ws : WebSocket) (message : jsval) (e : exn) :
  strict_equals (member message "type") (JStr "joinRoom") = true ->
  log_line_error rt message = Some e ->
  let r := onmessage rt readyState room ws (Text message) in
  completion_of r = Threw e
  /\ sent_of r = []
  /\ sessions (room_of r) = sessions room
  /\ Map.get (member message "sessionId") (participants (room_of r))
     = Some (record_of ws message).
Proof.
  intros Hty Hlog r.
  assert (Hm : member_throws message = false).
  { destruct message; try reflexivity; simpl in Hty; discriminate. }
  assert (Hr : r = (Threw e,
                    {| sessions := sessions room;
                       participants :=
                         Map.set (member message "sessionId") (record_of ws message)
                           (participants room) |}, [])).
  { unfold r, onmessage. cbn [JSON_parse]. rewrite Hm, Hty.
    unfold log_line_error in Hlog.
    destruct (to_string_error (print_depth rt) (member message "userName")) as [e'|].
    - injection Hlog as ->. reflexivity.
    - destruct (substring_throws (member message "sessionId")); [|discriminate Hlog].
      injection Hlog as <-. reflexivity. }
  rewrite Hr. unfold completion_of, sent_of, room_of. cbn [fst snd sessions participants].
  repeat split. apply get_set. reflexivity.
Qed.

Lemma join_that_throws_witness :
  completion_of
    (onmessage sample_runtime all_open room_a 2
       (Text (JObj 0 [("type", JStr "joinRoom"); ("sessionId", JNum 5)])))
  = Threw TypeError
  /\ sent_of
       (onmessage sample_runtime all_open room_a 2
          (Text (JObj 0 [("type", JStr "joinRoom"); ("sessionId", JNum 5)])))
     = []
  /\ Map.get (JNum 5)
       (participants
          (room_of
             (onmessage sample_runtime all_open room_a 2
                (Text (JObj 0 [("type", JStr "joinRoom"); ("sessionId", JNum 5)])))))
     = Some (Participant.mk 2 JUndefined JUndefined).
Proof.
  destruct (join_that_throws sample_runtime all_open room_a 2
              (JObj 0 [("type", JStr "joinRoom"); ("sessionId", JNum 5)]) TypeError
              eq_refl eq_refl) as [H1 [H2 [_ H3]]].
  split; [exact H1|]. split; [exact H2 | exact H3].
Defined.

(** ** What a close can do to the room *)

Lemma without_idem (ws : WebSocket) (l : list WebSocket) :
  without ws (without ws l) = without ws l.
Proof.
  unfold without. induction l as [|x l IH]; simpl; [reflexivity|].
  destruct (negb (ws_eqb x ws)) eqn:E; simpl; [rewrite E, IH|]; auto.
Qed.

Lemma without_fresh (ws : WebSocket) (l : list WebSocket) :
  ~ In ws l -> without ws l = l.
Proof.
  unfold without. induction l as [|x l IH]; simpl; [reflexivity|].
  intros H. assert (Hx : ws_eqb x ws = false).
  { apply Nat.eqb_neq. intros ->. apply H. left. reflexivity. }
  rewrite Hx. simpl. f_equal. apply IH. tauto.
Qed.

Lemma without_app_fresh (ws : WebSocket) (l : list WebSocket) :
  ~ In ws l -> without ws (l ++ [ws]) = l.
Proof.
  intros H. unfold without. rewrite filter_app. simpl.
  unfold ws_eqb at 2. rewrite Nat.eqb_refl. simpl. rewrite app_nil_r.
  apply without_fresh. exact H.
Qed.

Lemma room_eta (room : ChatRoom) :
  {| sessions := sessions room; participants := participants room |} = room.
Proof. destruct room. reflexivity. Qed.

(** X6: a close whose record has an id that is not a non-empty string
    removes the record and tells nobody: a falsy id fails the guard of the
    broadcast, any other one makes the log line throw. *)
Theorem close_with_unannounceable_id (readyState : WebSocket -> ready_state)
    (room : ChatRoom) (ws : WebSocket) (id : jsval) :
  Map.wf (participants room) = true ->
  find_by_ws ws (Map.entries (participants room)) = Some id ->
  (forall sid, id = JStr sid -> sid = "") ->
  let r := onclose readyState room ws in
  sent_of r = []
  /\ participants (room_of r) = Map.delete id (participants room)
  /\ Map.get id (participants (room_of r)) = None
  /\ completion_of r = if truthy id then Threw TypeError else Returned.
Proof.
  intros Hwf Hfind Hid r.
  assert (Hr : r = (if truthy id then Threw TypeError else Returned,
                    {| sessions := without ws (sessions room);
                       participants := Map.delete id (participants room) |}, [])).
  { unfold r, onclose. rewrite Hfind.
    destruct (truthy id) eqn:Et; [|reflexivity].
    destruct (substring_throws id) eqn:Es; [reflexivity|].
    destruct id; try discriminate Es.
    rewrite (Hid s eq_refl) in Et. discriminate Et. }
  rewrite Hr. unfold completion_of, sent_of, room_of. cbn [fst snd participants].
  repeat split. apply get_delete. exact Hwf.
Qed.

Lemma close_with_unannounceable_id_witness :
  sent_of (onclose all_open
             {| sessions := [1; 2];
                participants := [(JStr "", Participant.mk 1 (JStr "A") (JArr 1 []))] |}
             1) = []
  /\ participants
       (room_of (onclose all_open
                   {| sessions := [1; 2];
                      participants := [(JStr "", Participant.mk 1 (JStr "A") (JArr 1 []))] |}
                   1)) = [].
Proof.
  destruct (close_with_unannounceable_id all_open
              {| sessions := [1; 2];
                 participants := [(JStr "", Participant.mk 1 (JStr "A") (JArr 1 []))] |}
              1 (JStr "") eq_refl eq_refl
              ltac:(intros sid H; injection H as <-; reflexivity))
    as [H1 [H2 _]].
  split; [exact H1 | exact H2].
Defined.

(** X7: after a close the socket is in neither collection, and a second
    close of the same socket changes nothing and sends nothing (on a registry
    with distinct ids where no two records share a socket). *)
Theorem second_close_is_idle (rs1 rs2 : WebSocket -> ready_state)
    (room : ChatRoom) (ws : WebSocket) :
  Map.wf (participants room) = true ->
  NoDup (owners (participants room)) ->
  let r1 := onclose rs1 room ws in
  ~ In ws (sessions (room_of r1))
  /\ ~ In ws (owners (participants (room_of r1)))
  /\ onclose rs2 (room_of r1) ws = (Returned, room_of r1, []).
Proof.
  intros Hwf Hnd r1.
  assert (H1 : room_of r1
               = {| sessions := without ws (sessions room);
                    participants :=
                      match find_by_ws ws (Map.entries (participants room)) with
                      | Some id => Map.delete id (participants room)
                      | None => participants room
                      end |})
    by (unfold r1; apply onclose_room).
  assert (Hgone : ~ In ws (owners (participants (room_of r1)))).
  { rewrite H1. cbn [participants].
    destruct (find_by_ws ws (Map.entries (participants room))) as [id|] eqn:Hfind.
    - destruct (owners_delete_found ws id (participants room) Hwf Hnd Hfind)
        as [_ H]. intros Hin. apply H in Hin. tauto.
    - apply find_by_ws_none. exact Hfind. }
  split.
  { rewrite H1. cbn [sessions]. intros Hin. apply in_without in Hin. tauto. }
  split; [exact Hgone|].
  rewrite (onclose_unbound rs2 (room_of r1) ws);
    [|apply find_by_ws_none; exact Hgone].
  assert (Hs : without ws (sessions (room_of r1)) = sessions (room_of r1))
    by (rewrite H1; cbn [sessions]; apply without_idem).
  rewrite Hs, room_eta. reflexivity.
Qed.

Lemma second_close_is_idle_witness :
  onclose all_open (room_of (onclose all_open room_a 1)) 1
  = (Returned, room_of (onclose all_open room_a 1), []).
Proof.
  assert (Hnd : NoDup (owners (participants room_a))).
  { simpl. constructor; [intros [] | constructor]. }
  destruct (second_close_is_idle all_open all_open room_a 1 eq_refl Hnd)
    as [_ [_ H]].
  exact H.
Defined.

Lemma in_delete_other (k id : jsval) (d : Participant.t) (m : Map.t) :
  In (id, d) m -> key_of id <> key_of k -> In (id, d) (Map.delete k m).
Proof.
  intros Hin Hne. induction m as [|[k0 v0] rest IH]; [contradiction|].
  cbn [Map.delete]. destruct (same_value_zero k0 k) eqn:E.
  - destruct Hin as [Heq|Hin]; [|exact Hin].
    injection Heq as -> ->. apply same_value_zero_iff in E. contradiction.
  - destruct Hin as [Heq|Hin]; [left; exact Heq | right; auto].
Qed.

Lemma size_delete (k : jsval) (m : Map.t) :
  Map.size m <= S (Map.size (Map.delete k m)).
Proof.
  unfold Map.size. induction m as [|[k0 v0] rest IH]; simpl; [lia|].
  destruct (same_value_zero k0 k); simpl; lia.
Qed.

Lemma wf_entry_unique (m : Map.t) (a b : jsval) (da db : Participant.t) :
  Map.wf m = true -> In (a, da) m -> In (b, db) m -> key_of a = key_of b ->
  (a, da) = (b, db).
Proof.
  rewrite wf_iff. induction m as [|[k0 v0] rest IH]; [intros _ []|].
  change (keys ((k0, v0) :: rest)) with (key_of k0 :: keys rest).
  intros Hnd Ha Hb Hk. inversion Hnd as [|x l Hx Hl]; subst.
  assert (Hkeys : forall id d, In (id, d) rest -> In (key_of id) (keys rest)).
  { intros id d H. unfold keys. apply in_map_iff. exists (id, d). auto. }
  destruct Ha as [Ha|Ha], Hb as [Hb|Hb].
  - congruence.
  - injection Ha as <- <-. exfalso. apply Hx. rewrite Hk. eapply Hkeys. exact Hb.
  - injection Hb as <- <-. exfalso. apply Hx. rewrite <- Hk. eapply Hkeys. exact Ha.
  - apply IH; assumption.
Qed.

(** X8: a close removes at most one record, and never a record bound to
    another socket. *)
Theorem close_spares_other_records (readyState : WebSocket -> ready_state)
    (room : ChatRoom) (ws : WebSocket) :
  Map.wf (participants room) = true ->
  let r := onclose readyState room ws in
  (forall id d, In (id, d) (Map.entries (participants room)) ->
                Participant.ws d <> ws ->
                In (id, d) (Map.entries (participants (room_of r))))
  /\ Map.size (participants room) <= S (Map.size (participants (room_of r))).
Proof.
  intros Hwf r. unfold r. rewrite onclose_room. cbn [participants].
  destruct (find_by_ws ws (Map.entries (participants room))) as [id0|] eqn:Hfind.
  - split; [|apply size_delete].
    intros id d Hin Hne. apply in_delete_other; [exact Hin|].
    intros Hk. apply find_by_ws_in in Hfind. destruct Hfind as [d0 [Hin0 Hws0]].
    pose proof (wf_entry_unique _ _ _ _ _ Hwf Hin Hin0 Hk) as Heq.
    injection Heq as _ ->. contradiction.
  - split; [auto | lia].
Qed.

Lemma close_spares_other_records_witness :
  In (JStr "a1", Participant.mk 1 (JStr "A") (JArr 1 []))
    (Map.entries (participants (room_of (onclose all_open room_a 2)))).
Proof.
  destruct (close_spares_other_records all_open room_a 2 eq_refl) as [H _].
  apply H; [left; reflexivity | discriminate].
Defined.

(** X9: a socket that is accepted and closes without having joined leaves
    no trace: the room is as it was before the socket came and nothing is
    sent. *)
Theorem accept_then_close_leaves_no_trace (readyState : WebSocket -> ready_state)
    (room : ChatRoom) (ws : WebSocket) :
  ~ In ws (sessions room) ->
  find_by_ws ws (Map.entries (participants room)) = None ->
  onclose readyState (room_of (handleWebSocket room ws)) ws = (Returned, room, []).
Proof.
  intros Hfresh Hfind.
  rewrite onclose_unbound; [|exact Hfind].
  unfold handleWebSocket, room_of. cbn [fst snd sessions participants].
  rewrite without_app_fresh, room_eta; [reflexivity | exact Hfresh].
Qed.

Lemma accept_then_close_leaves_no_trace_witness :
  onclose all_open (room_of (handleWebSocket room_a 4)) 4 = (Returned, room_a, []).
Proof.
  apply accept_then_close_leaves_no_trace.
  - simpl. intros H. repeat (destruct H as [H|H]; [discriminate H|]). exact H.
  - reflexivity.
Defined.

Lemma set_absent (k : jsval) (v : Participant.t) (m : Map.t) :
  Map.has k m = false -> Map.set k v m = m ++ [(Map.canonical k, v)].
Proof.
  unfold Map.has. induction m as [|[k0 v0] rest IH]; simpl; [reflexivity|].
  intros H. apply orb_false_iff in H. destruct H as [H1 H2].
  rewrite H1, IH; [reflexivity | exact H2].
Qed.

Lemma find_by_ws_last (w : WebSocket) (k : jsval) (v : Participant.t) (m : Map.t) :
  find_by_ws w m = None -> Participant.ws v = w ->
  find_by_ws w (m ++ [(k, v)]) = Some k.
Proof.
  intros Hm Hv. induction m as [|[k0 v0] rest IH]; simpl.
  - unfold ws_eqb. rewrite Hv, Nat.eqb_refl. reflexivity.
  - simpl in Hm. destruct (ws_eqb (Participant.ws v0) w); [discriminate | auto].
Qed.

Lemma delete_last (k k' : jsval) (v : Participant.t) (m : Map.t) :
  Map.has k m = false -> key_of k' = key_of k ->
  Map.delete k (m ++ [(k', v)]) = m.
Proof.
  unfold Map.has. intros Hm Hk. induction m as [|[k0 v0] rest IH]; simpl.
  - replace (same_value_zero k' k) with true; [reflexivity|].
    symmetry. apply same_value_zero_iff. exact Hk.
  - simpl in Hm. apply orb_false_iff in Hm. destruct Hm as [H1 H2].
    rewrite H1, IH; [reflexivity | exact H2].
Qed.

(** X10: joining and leaving is a round trip on the registry.  A socket
    that holds no record joins under a new non-empty id and then closes: the
    registry is again what it was before the join, and every remaining open
    socket is told the id has left. *)
Theorem join_then_close_restores_registry (rt : Runtime) (rs1 rs2 : WebSocket -> ready_state)
    (room : ChatRoom) (ws : WebSocket) (message : jsval) (sid : string) :
  strict_equals (member message "type") (JStr "joinRoom") = true ->
  member message "sessionId" = JStr sid ->
  sid <> "" ->
  Map.has (JStr sid) (participants room) = false ->
  find_by_ws ws (Map.entries (participants room)) = None ->
  let r1 := onmessage rt rs1 room ws (Text message) in
  let r2 := onclose rs2 (room_of r1) ws in
  completion_of r2 = Returned
  /\ participants (room_of r2) = participants room
  /\ sessions (room_of r2) = without ws (sessions room)
  /\ (forall s,
        received s (sent_of r2)
        = if is_OPEN (rs2 s)
          then repeat (participantLeft (JStr sid))
                 (count_occ Nat.eq_dec (without ws (sessions room)) s)
          else []).
Proof.
  intros Hty Hsid Hne Hnew Hfree r1 r2.
  assert (H1 : room_of r1
               = {| sessions := sessions room;
                    participants :=
                      participants room ++ [(JStr sid, record_of ws message)] |}).
  { unfold r1. rewrite (onmessage_join_room rt rs1 room ws message Hty), Hsid.
    rewrite set_absent; [reflexivity | exact Hnew]. }
  assert (Hfind : find_by_ws ws (Map.entries (participants (room_of r1)))
                  = Some (JStr sid)).
  { rewrite H1. apply find_by_ws_last; [exact Hfree | reflexivity]. }
  assert (H2 : r2 = (Returned,
                     {| sessions := without ws (sessions (room_of r1));
                        participants := Map.delete (JStr sid) (participants (room_of r1)) |},
                     notify_left rs2 (JStr sid) (without ws (sessions (room_of r1)))))
    by (unfold r2; apply onclose_bound; assumption).
  rewrite H2. unfold completion_of, room_of at 1 2 3, sent_of.
  cbn [fst snd sessions participants].
  split; [reflexivity|].
  split; [rewrite H1; cbn [participants]; apply delete_last; [exact Hnew | reflexivity]|].
  split; [rewrite H1; reflexivity|].
  intros s. rewrite received_notify_left, H1. reflexivity.
Qed.

Lemma join_then_close_restores_registry_witness :
  participants
    (room_of
       (onclose all_open
          (room_of (onmessage sample_runtime all_open room_a 2 (Text (join_message "b1" "B")))) 2))
  = participants room_a
  /\ received 1
       (sent_of
          (onclose all_open
             (room_of (onmessage sample_runtime all_open room_a 2 (Text (join_message "b1" "B")))) 2))
     = [participantLeft (JStr "b1")].
Proof.
  destruct (join_then_close_restores_registry sample_runtime all_open all_open room_a 2
              (join_message "b1" "B") "b1"
              eq_refl eq_refl ltac:(discriminate) eq_refl eq_refl)
    as [_ [H1 [_ H2]]].
  split; [exact H1 | exact (H2 1)].
Defined.

(** ** Records and their sockets *)

(** X11: in a room that started empty, as long as the joins come in order,
    every record's socket is in [sessions] and no two records share a
    socket. *)
Theorem records_stay_bound_to_sessions (rt : Runtime)
    (pre post : list ((WebSocket -> ready_state) * event)) :
  in_order rt new_ChatRoom (pre ++ post) = true ->
  let room := fst (run rt new_ChatRoom pre) in
  (forall id d, In (id, d) (Map.entries (participants room)) ->
                In (Participant.ws d) (sessions room))
  /\ NoDup (owners (participants room)).
Proof.
  intros H room.
  assert (Hb : bound room).
  { apply bound_run; [apply bound_new | eapply in_order_app; exact H]. }
  destruct Hb as [_ [Hnd Hincl]]. split; [|exact Hnd].
  intros id d Hin. apply Hincl. unfold owners. apply in_map_iff.
  exists (id, d). split; [reflexivity | exact Hin].
Qed.

Lemma records_stay_bound_to_sessions_witness :
  NoDup (owners (participants (fst (run sample_runtime new_ChatRoom
     [(all_open, Accepted 1); (all_open, MessageEvent 1 (Text (join_message "a1" "A")));
      (all_open, Accepted 2); (all_open, MessageEvent 2 (Text (join_message "a1" "B")))])))).
Proof.
  apply (records_stay_bound_to_sessions sample_runtime
           [(all_open, Accepted 1); (all_open, MessageEvent 1 (Text (join_message "a1" "A")));
            (all_open, Accepted 2); (all_open, MessageEvent 2 (Text (join_message "a1" "B")))]
           []).
  reflexivity.
Defined.

Lemma snapshot_ids (k : jsval) (m : Map.t) (id : jsval) :
  In id (map Info.sessionId (snapshot k m)) -> In (key_of id) (keys m).
Proof.
  unfold snapshot. rewrite map_map. rewrite in_map_iff.
  intros [[id0 d] [Hid Hin]]. cbn in Hid. subst id0.
  apply filter_In in Hin. destruct Hin as [Hin _].
  unfold keys. apply in_map_iff. exists (id, d). auto.
Qed.

Lemma in_string_ids (s : string) (l : list Info.t) :
  In s (string_ids l) -> In (JStr s) (map Info.sessionId l).
Proof.
  unfold string_ids. rewrite in_flat_map, in_map_iff.
  intros [i [Hi Hs]]. exists i. split; [|exact Hi].
  destruct (Info.sessionId i); try contradiction.
  destruct Hs as [->|[]]. reflexivity.
Qed.

Lemma snapshot_string_ids_NoDup (k : jsval) (m : Map.t) :
  Map.wf m = true -> NoDup (string_ids (snapshot k m)).
Proof.
  rewrite wf_iff. induction m as [|[k0 v0] rest IH].
  - intros _. constructor.
  - change (keys ((k0, v0) :: rest)) with (key_of k0 :: keys rest).
    intros Hnd. inversion Hnd as [|x l Hx Hl]; subst.
    unfold snapshot. cbn [filter fst].
    destruct (negb (strict_equals k0 k)); [|apply IH; exact Hl].
    cbn [map public fst]. unfold string_ids. cbn [flat_map Info.sessionId].
    destruct k0; try (apply IH; exact Hl).
    cbn [app]. constructor; [|apply IH; exact Hl].
    intros Hin. apply Hx. apply in_string_ids in Hin.
    apply snapshot_ids in Hin. exact Hin.
Qed.

(** X12: among the ids that an [existingParticipants] reply lists, no
    string occurs twice. *)
Theorem reply_names_each_id_once (rt : Runtime) (readyState : WebSocket -> ready_state)
    (room : ChatRoom) (ws : WebSocket) (data : frame) (s : WebSocket)
    (list : list Info.t) :
  Map.wf (participants room) = true ->
  In (s, existingParticipants list) (sent_of (onmessage rt readyState room ws data)) ->
  NoDup (string_ids list).
Proof.
  intros Hwf Hin.
  assert (Hwf' : Map.wf (participants (room_of (onmessage rt readyState room ws data)))
                 = true)
    by (apply (wf_dispatch rt readyState room (MessageEvent ws data)); exact Hwf).
  destruct (onmessage_sent_shape rt readyState room ws data)
    as [joined [reply [Hsent [Hj Hr]]]].
  rewrite Hsent in Hin. apply in_app_or in Hin. destruct Hin as [Hin|Hin].
  - destruct Hj as [->|[a [b [c ->]]]]; [destruct Hin|].
    apply in_notify_joined in Hin. destruct Hin as [_ [_ [_ Hm]]]. discriminate Hm.
  - destruct Hr as [->|[_ [k ->]]]; [destruct Hin|].
    destruct Hin as [Hin|[]]. injection Hin as _ <-.
    apply snapshot_string_ids_NoDup. exact Hwf'.
Qed.

Lemma reply_names_each_id_once_witness :
  NoDup (string_ids [Info.mk (JStr "a1") (JStr "A") (JArr 1 [])]).
Proof.
  apply (reply_names_each_id_once sample_runtime all_open room_a 2
           (Text (join_message "b1" "B")) 2
           [Info.mk (JStr "a1") (JStr "A") (JArr 1 [])] eq_refl).
  right. right. left. reflexivity.
Defined.

(** * The entry points *)

Lemma put_room_same (rooms : Directory) (name n : string) :
  put_room rooms name (rooms name) n = rooms n.
Proof.
  unfold put_room. destruct (String.eqb n name) eqn:E; [|reflexivity].
  apply String.eqb_eq in E. subst n. reflexivity.
Qed.

Lemma header_differs_false (header : option string) (value : string) :
  header_differs header value = false <-> header = Some value.
Proof.
  destruct header as [v|]; simpl.
  - rewrite negb_false_iff, String.eqb_eq. split; congruence.
  - split; discriminate.
Qed.

(** X13: the worker hands out a socket exactly for a request to
    [/websocket] whose [Upgrade] header is exactly [websocket].  Then the
    client end is in the response and the server end is appended to the
    sessions of the room the request names, its registry untouched; every
    other room is as before.  Any other request changes no room. *)
Theorem worker_upgrade (rooms : Directory) (request : Request)
    (client server : WebSocket) :
  let result := index_default_fetch rooms request (client, server) in
  let name := or_else (room_param request) "default-room" in
  (status (fst result) = 101
   <-> pathname request = "/websocket" /\ Upgrade request = Some "websocket")
  /\ (status (fst result) = 101 ->
      webSocket (fst result) = Some client
      /\ snd result name
         = {| sessions := sessions (rooms name) ++ [server];
              participants := participants (rooms name) |})
  /\ (forall n, n <> name -> snd result n = rooms n)
  /\ (status (fst result) <> 101 -> forall n, snd result n = rooms n).
Proof.
  intros result name. unfold result, index_default_fetch, ChatRoom_fetch.
  fold name.
  destruct (String.eqb (pathname request) "/websocket") eqn:Hp.
  - apply String.eqb_eq in Hp.
    destruct (header_differs (Upgrade request) "websocket") eqn:Hu; cbn [fst snd status webSocket].
    + split.
      { split; [discriminate|]. intros [_ H].
        apply header_differs_false in H. congruence. }
      split; [discriminate|].
      split; intros; apply put_room_same.
    + apply header_differs_false in Hu.
      split; [split; auto|].
      split.
      { intros _. split; [reflexivity|]. unfold put_room.
        rewrite String.eqb_refl. reflexivity. }
      split.
      { intros n Hn. unfold put_room. apply String.eqb_neq in Hn. rewrite Hn.
        reflexivity. }
      intros H. contradiction.
  - apply String.eqb_neq in Hp.
    destruct (String.eqb (pathname request) "/"); cbn [fst snd status webSocket];
      (split; [split; [discriminate | intros [H _]; contradiction]|]);
      (split; [discriminate|]); split; reflexivity.
Qed.

(** X14: a request without a [room] parameter, or with an empty one, is
    served exactly as the same request for the room [default-room]. *)
Theorem missing_room_is_default_room (rooms : Directory) (request : Request)
    (webSocketPair : WebSocket * WebSocket) (n : string) :
  room_param request = None \/ room_param request = Some "" ->
  let named :=
    {| pathname := pathname request;
       room_param := Some "default-room";
       Upgrade := Upgrade request |} in
  fst (index_default_fetch rooms request webSocketPair)
  = fst (index_default_fetch rooms named webSocketPair)
  /\ snd (index_default_fetch rooms request webSocketPair) n
     = snd (index_default_fetch rooms named webSocketPair) n.
Proof.
  intros H named.
  assert (Hname : or_else (room_param request) "default-room" = "default-room")
    by (destruct H as [-> | ->]; reflexivity).
  unfold index_default_fetch, ChatRoom_fetch. rewrite Hname.
  cbn [pathname room_param Upgrade named or_else String.eqb Ascii.eqb Bool.eqb].
  split; reflexivity.
Qed.

Lemma missing_room_is_default_room_witness :
  snd (index_default_fetch new_Directory
         {| pathname := "/websocket"; room_param := None; Upgrade := Some "websocket" |}
         (7, 8)) "default-room"
  = snd (index_default_fetch new_Directory
           {| pathname := "/websocket"; room_param := Some "default-room";
              Upgrade := Some "websocket" |}
           (7, 8)) "default-room".
Proof.
  apply (missing_room_is_default_room new_Directory
           {| pathname := "/websocket"; room_param := None; Upgrade := Some "websocket" |}
           (7, 8) "default-room").
  left. reflexivity.
Defined.

Lemma run_app (rt : Runtime) (room : ChatRoom)
    (a b : list ((WebSocket -> ready_state) * event)) :
  fst (run rt room (a ++ b)) = fst (run rt (fst (run rt room a)) b).
Proof.
  revert room. induction a as [|[readyState ev] rest IH]; intros room.
  - reflexivity.
  - cbn [app run]. specialize (IH (room_of (dispatch rt readyState room ev))).
    destruct (run rt (room_of (dispatch rt readyState room ev)) (rest ++ b)) as [r1 o1].
    destruct (run rt (room_of (dispatch rt readyState room ev)) rest) as [r2 o2].
    cbn [fst] in *. exact IH.
Qed.

Lemma serve_room (rt : Runtime) (readyState : WebSocket -> ready_state) (rooms : Directory)
    (i : input) (name : string) :
  fst (serve rt readyState rooms i) name
  = fst (run rt (rooms name) (events_of_room name (readyState, i))).
Proof.
  destruct i as [request [client server]|roomName e];
    unfold serve, events_of_room; cbn [fst snd].
  - unfold index_default_fetch, ChatRoom_fetch.
    destruct (String.eqb (pathname request) "/websocket"); cbn [andb].
    + destruct (header_differs (Upgrade request) "websocket"); cbn [andb negb fst snd].
      * apply put_room_same.
      * unfold put_room.
        destruct (String.eqb name (or_else (room_param request) "default-room")) eqn:E.
        -- apply String.eqb_eq in E. rewrite <- E. reflexivity.
        -- reflexivity.
    + destruct (String.eqb (pathname request) "/"); reflexivity.
  - unfold put_room. destruct (String.eqb name roomName) eqn:E.
    + apply String.eqb_eq in E. subst roomName. cbn [run].
      destruct (dispatch rt readyState (rooms name) (event_of e)) as [[c room'] out].
      reflexivity.
    + reflexivity.
Qed.

(** X15: rooms do not interfere.  After any inputs to the worker, a room is
    what its own events alone make of it: the sockets accepted for its name
    and the events on its sockets, in their order. *)
Theorem room_depends_on_its_own_events (rt : Runtime)
    (trace : list ((WebSocket -> ready_state) * input))
    (rooms : Directory) (name : string) :
  fst (serve_all rt rooms trace) name
  = fst (run rt (rooms name) (flat_map (events_of_room name) trace)).
Proof.
  revert rooms. induction trace as [|[readyState i] rest IH]; intros rooms.
  - reflexivity.
  - cbn [serve_all flat_map]. rewrite run_app.
    rewrite <- (serve_room rt readyState rooms i name).
    destruct (serve rt readyState rooms i) as [rooms1 out1].
    specialize (IH rooms1).
    destruct (serve_all rt rooms1 rest) as [rooms2 out2].
    cbn [fst] in *. exact IH.
Qed.

(** X16: the test worker answers every request with status 200 and no
    socket; [/invoke-do] gets the greeting of the Durable Object, and the
    object's other answer can never come out of the worker. *)
Theorem test_worker_responses (pathname now : string) :
  status (TestWorker.fetch pathname now) = 200
  /\ webSocket (TestWorker.fetch pathname now) = None
  /\ body (TestWorker.fetch pathname now) <> TextBody "Request received by ChatRoom DO."
  /\ (pathname = "/invoke-do" <->
      body (TestWorker.fetch pathname now)
      = TextBody "Hello from the ChatRoom Durable Object!").
Proof.
  unfold TestWorker.fetch.
  destruct (String.eqb pathname "/invoke-do") eqn:E.
  - apply String.eqb_eq in E. subst pathname.
    repeat split; try reflexivity; discriminate.
  - apply String.eqb_neq in E.
    repeat split; try reflexivity; try discriminate.
    intros H. contradiction.
Qed.

Lemma onmessage_sessions (rt : Runtime) (readyState : WebSocket -> ready_state)
    (room : ChatRoom) (ws : WebSocket) (data : frame) :
  sessions (room_of (onmessage rt readyState room ws data)) = sessions room.
Proof.
  destruct data as [|message]; [reflexivity|].
  destruct (strict_equals (member message "type") (JStr "joinRoom")) eqn:Hty.
  - rewrite (onmessage_join_room rt readyState room ws message Hty). reflexivity.
  - unfold onmessage. cbn [JSON_parse]. rewrite Hty.
    destruct (member_throws message); reflexivity.
Qed.

Lemma dispatch_sessions (rt : Runtime) (readyState : WebSocket -> ready_state)
    (room : ChatRoom) (ev : event) (s : WebSocket) :
  In s (sessions (room_of (dispatch rt readyState room ev))) ->
  In s (sessions room) \/ ev = Accepted s.
Proof.
  destruct ev as [ws|ws data|ws|ws]; cbn [dispatch].
  - unfold handleWebSocket, room_of. cbn [fst snd sessions]. intros H.
    apply in_app_or in H. destruct H as [H|[H|[]]]; [left; exact H|].
    right. subst s. reflexivity.
  - intros H. left. rewrite onmessage_sessions in H. exact H.
  - rewrite onclose_room. cbn [sessions]. intros H. apply in_without in H. tauto.
  - intros H. left. exact H.
Qed.

Lemma sessions_were_accepted (rt : Runtime) (trace : list ((WebSocket -> ready_state) * event))
    (room : ChatRoom) (s : WebSocket) :
  In s (sessions (fst (run rt room trace))) ->
  In s (sessions room) \/ exists readyState, In (readyState, Accepted s) trace.
Proof.
  revert room. induction trace as [|[readyState ev] rest IH]; intros room.
  - intros H. left. exact H.
  - cbn [run]. specialize (IH (room_of (dispatch rt readyState room ev))).
    destruct (run rt (room_of (dispatch rt readyState room ev)) rest) as [room' out].
    cbn [fst] in *. intros H. destruct (IH H) as [H1|[rs' H1]].
    + apply dispatch_sessions in H1. destruct H1 as [H1|H1]; [left; exact H1|].
      right. exists readyState. left. rewrite H1. reflexivity.
    + right. exists rs'. right. exact H1.
Qed.

Lemma serve_all_sessions (rt : Runtime) (pre : list ((WebSocket -> ready_state) * input))
    (rooms : Directory) (name : string) (s : WebSocket) :
  In s (sessions (fst (serve_all rt rooms pre) name)) ->
  In s (sessions (rooms name))
  \/ exists rs, In (rs, Accepted s) (flat_map (events_of_room name) pre).
Proof.
  revert rooms. induction pre as [|[readyState i] rest IH]; intros rooms.
  - intros H. left. exact H.
  - cbn [serve_all flat_map].
    pose proof (serve_room rt readyState rooms i name) as Hstep.
    destruct (serve rt readyState rooms i) as [rooms1 out1].
    specialize (IH rooms1).
    destruct (serve_all rt rooms1 rest) as [rooms2 out2].
    cbn [fst] in *. intros H. destruct (IH H) as [H1|[rs H1]].
    + rewrite Hstep in H1. apply sessions_were_accepted in H1.
      destruct H1 as [H1|[rs H1]]; [left; exact H1|].
      right. exists rs. apply in_or_app. left. exact H1.
    + right. exists rs. apply in_or_app. right. exact H1.
Qed.

Lemma sends_by_event_sessions (rt : Runtime) (readyState : WebSocket -> ready_state)
    (room : ChatRoom) (e : socket_event) (s : WebSocket) (m : outbound) :
  In (s, m) (sent_of (dispatch rt readyState room (event_of e))) ->
  (exists data, e = OnMessage s data) \/ In s (sessions room).
Proof.
  destruct e as [ws data|ws|ws]; cbn [event_of dispatch].
  - intros H. apply onmessage_sent in H. destruct H as [_ [[-> _]|[_ [H _]]]].
    + left. exists data. reflexivity.
    + right. exact H.
  - intros H. apply onclose_sent in H. right. tauto.
  - intros [].
Qed.

(** X17: notifications stay in their room.  Whatever the worker has served
    before, a message sent while an event of a room is handled goes either
    back to the socket the frame came from or to a socket that the worker
    accepted for that very room. *)
Theorem notifications_stay_in_room (rt : Runtime)
    (pre : list ((WebSocket -> ready_state) * input))
    (readyState : WebSocket -> ready_state) (name : string) (e : socket_event)
    (s : WebSocket) (m : outbound) :
  In (s, m)
    (sent_of (dispatch rt readyState (fst (serve_all rt new_Directory pre) name) (event_of e))) ->
  (exists data, e = OnMessage s data)
  \/ exists rs, In (rs, Accepted s) (flat_map (events_of_room name) pre).
Proof.
  intros H. apply sends_by_event_sessions in H.
  destruct H as [H|H]; [left; exact H|]. right.
  apply serve_all_sessions in H. destruct H as [[]|H]. exact H.
Qed.

Lemma notifications_stay_in_room_witness :
  (exists data, OnMessage 10 (Text (join_message "b1" "B")) = OnMessage 8 data)
  \/ exists rs,
       In (rs, Accepted 8)
         (flat_map (events_of_room "default-room")
            [(all_open,
              FetchInput {| pathname := "/websocket"; room_param := None;
                            Upgrade := Some "websocket" |} (7, 8));
             (all_open,
              FetchInput {| pathname := "/websocket"; room_param := Some "default-room";
                            Upgrade := Some "websocket" |} (9, 10));
             (all_open,
              SocketInput "default-room" (OnMessage 8 (Text (join_message "a1" "A"))))]).
Proof.
  apply (notifications_stay_in_room sample_runtime
           [(all_open,
             FetchInput {| pathname := "/websocket"; room_param := None;
                           Upgrade := Some "websocket" |} (7, 8));
            (all_open,
             FetchInput {| pathname := "/websocket"; room_param := Some "default-room";
                           Upgrade := Some "websocket" |} (9, 10));
            (all_open,
             SocketInput "default-room" (OnMessage 8 (Text (join_message "a1" "A"))))]
           all_open "default-room" (OnMessage 10 (Text (join_message "b1" "B")))
           8 (participantJoined (JStr "b1") (JStr "B") (JArr 1 []))).
  left. reflexivity.
Defined.
